(** * ERA-5 raster extraction: a shallow embedding of [era_temp_overlay.py]

    The script overlays point observations on a monthly ERA-5 raster, samples
    every band at every point, converts units, matches each point's own
    observation date with one band, and writes a CSV table.

    Python values are embedded as a tagged union; floats are IEEE binary64
    (Rocq's primitive floats, the same format as Python's [float]); strings
    are sequences of code points below 256; dictionaries are association
    lists in insertion order, as Python's [dict] keeps them.  The libraries
    the script calls (numpy, rasterio, [datetime.strptime], the builtin
    [round]) are embedded by the part of their behaviour the script uses. *)

From Stdlib Require Import ZArith NArith List String Ascii Bool Lia.
From Stdlib Require Import Decimal DecimalString DecimalN FinFun.
From Stdlib Require Import Floats.
Import ListNotations.

Set Warnings "-inexact-float".

Local Open Scope string_scope.
Local Open Scope Z_scope.

(* ================================================================= *)
(** ** Python values *)

(** The values that flow through the script: [None], integers (raster row
    and column), floats (raster cells), strings, and numpy datetimes
    ([np.datetime64], kept as a calendar year, month and day). *)
Inductive pyval : Type :=
| PNone
| PInt (n : Z)
| PFloat (f : float)
| PStr (s : string)
| PDatetime64 (year month day : Z).

(** Unique identifiers of observations: integers or strings. *)
Inductive obs_id : Type :=
| IdInt (n : Z)
| IdStr (s : string).

Definition obs_id_eqb (a b : obs_id) : bool :=
  match a, b with
  | IdInt x, IdInt y => Z.eqb x y
  | IdStr x, IdStr y => String.eqb x y
  | _, _ => false
  end.

Definition pyval_of_id (i : obs_id) : pyval :=
  match i with
  | IdInt n => PInt n
  | IdStr s => PStr s
  end.

(* ================================================================= *)
(** ** Unit conversion: [convert_units] *)

Module Units.

Local Open Scope float_scope.

(** [convert_units(varname, value)], lines 62-71 of the script. *)
Definition convert_units (varname : string) (value : float) : float :=
  if String.eqb varname "temp" then value - 272.15
  else if String.eqb varname "precip" then value * 1000
  else value.

(** The reference conversion, written from the specification's words:
    Kelvin to Celsius subtracts 273.15, meters to millimeters multiplies by
    1000, any other kind passes through. *)
Definition convert_reference (kind : string) (raw : float) : float :=
  if String.eqb kind "temp" then raw - 273.15
  else if String.eqb kind "precip" then raw * 1000
  else raw.

(** *** The builtin [round(x, 4)] on a float

    CPython rounds the exact binary value of [x] to four decimals (ties to
    even) and returns the float nearest to that decimal; infinities, NaN and
    zeros round to themselves.  [scaled_half_even m e] is the integer nearest
    to [m * 2^e * 10^4]. *)
Definition scaled_half_even (m : positive) (e : Z) : Z :=
  let num := (Z.pos m * 10000)%Z in
  if (0 <=? e)%Z then (num * 2 ^ e)%Z
  else
    let den := (2 ^ (- e))%Z in
    let q := (num / den)%Z in
    let r := (num mod den)%Z in
    match (2 * r ?= den)%Z with
    | Lt => q
    | Gt => (q + 1)%Z
    | Eq => if Z.even q then q else (q + 1)%Z
    end.

Definition float_of_small_Z (s : bool) (n : Z) : float :=
  match n with
  | Zpos p => SF2Prim (S754_finite s p 0)
  | _ => SF2Prim (S754_zero s)
  end.

(** Above [2^53 / 10^4] a float is already a multiple of a step larger than
    [10^-4], so the nearest float to the rounded decimal is [x] itself. *)
Definition round4 (x : float) : float :=
  match Prim2SF x with
  | S754_finite s m e =>
      let n := scaled_half_even m e in
      if (2 ^ 53 <=? n)%Z then x
      else float_of_small_Z s n / 10000
  | _ => x
  end.

End Units.

(* ================================================================= *)
(** ** Python strings *)

Module PyStr.

Definition code (c : ascii) : N := N_of_ascii c.

(** [str.isspace] on one character, for code points below 256. *)
Definition isspace (c : ascii) : bool :=
  let n := code c in
  ((9 <=? n) && (n <=? 13) || (28 <=? n) && (n <=? 32)
   || (n =? 133) || (n =? 160))%N.

Definition isdigit (c : ascii) : bool :=
  let n := code c in ((48 <=? n) && (n <=? 57))%N.

Definition digit_value (c : ascii) : Z := Z.of_N (code c) - 48.

Fixpoint lstrip (s : string) : string :=
  match s with
  | String c s' => if isspace c then lstrip s' else s
  | EmptyString => EmptyString
  end.

Fixpoint rstrip (s : string) : string :=
  match s with
  | String c s' =>
      match rstrip s' with
      | EmptyString => if isspace c then EmptyString else String c EmptyString
      | r => String c r
      end
  | EmptyString => EmptyString
  end.

(** [s.strip()] with no argument. *)
Definition strip (s : string) : string := rstrip (lstrip s).

Fixpoint all_space (s : string) : bool :=
  match s with
  | String c s' => isspace c && all_space s'
  | EmptyString => true
  end.

Fixpoint no_space (s : string) : bool :=
  match s with
  | String c s' => negb (isspace c) && no_space s'
  | EmptyString => true
  end.

(** [s.startswith(p)]. *)
Definition startswith (p s : string) : bool := String.prefix p s.

Fixpoint zeros (k : nat) : string :=
  match k with
  | O => EmptyString
  | S k' => String "0" (zeros k')
  end.

(** Decimal digits of a natural number, as [str(n)] prints them. *)
Definition digits (n : N) : string := NilEmpty.string_of_uint (N.to_uint n).

Definition zero_pad (w : nat) (s : string) : string :=
  zeros (w - String.length s) ++ s.

(** C's [%0wd] on an integer: sign first, then zeros up to width [w]. *)
Definition fmt_0d (w : nat) (z : Z) : string :=
  if z <? 0 then String "-" (zero_pad (w - 1) (digits (Z.to_N (- z))))
  else zero_pad w (digits (Z.to_N z)).

End PyStr.

(* ================================================================= *)
(** ** numpy datetimes *)

Module Np.
Import PyStr.

(** A [datetime64[M]] value: months since 1970-01, as numpy stores it. *)
Definition datetime64M := Z.

Definition year_of (t : datetime64M) : Z := 1970 + t / 12.
Definition month_of (t : datetime64M) : Z := t mod 12 + 1.

(** [np.datetime64('YYYY-MM')]. *)
Definition of_year_month (y m : Z) : datetime64M := (y - 1970) * 12 + (m - 1).

(** ["YYYY-MM"] for a year and a month. *)
Definition iso_year_month (y m : Z) : string :=
  fmt_0d 4 y ++ "-" ++ fmt_0d 2 m.

(** [str(yearmonth)] on a [datetime64[M]]. *)
Definition str_M (t : datetime64M) : string :=
  iso_year_month (year_of t) (month_of t).

End Np.

(* ================================================================= *)
(** ** [datetime.strptime(s, '%m/%d/%Y')] *)

Module Strptime.
Import PyStr.

Inductive error : Type :=
| NoMatch (data_string format : string)
    (* time data ... does not match format ... *)
| UnconvertedRemains (rest : string)
    (* unconverted data remains: ... *)
| OutOfRange (year month day : Z).
    (* year 0 is out of range / day is out of range for month *)

Definition format : string := "%m/%d/%Y".

(** The directive [%m] is the group [1[0-2]|0[1-9]|[1-9]]: every way it can
    match at the head of [s], in the order the regex engine tries them, each
    with the matched number and the rest of the string. *)
Definition alts_m (s : string) : list (Z * string) :=
  match s with
  | String a r1 =>
      (match r1 with
       | String b r2 =>
           (if Ascii.eqb a "1" && isdigit b && (digit_value b <=? 2)
            then [(10 + digit_value b, r2)] else [])
           ++ (if Ascii.eqb a "0" && isdigit b && (1 <=? digit_value b)
               then [(digit_value b, r2)] else [])
       | EmptyString => []
       end)
      ++ (if isdigit a && (1 <=? digit_value a) then [(digit_value a, r1)] else [])
  | EmptyString => []
  end.

(** The directive [%d] is the group [3[0-1]|[1-2]\d|0[1-9]|[1-9]| [1-9]]. *)
Definition alts_d (s : string) : list (Z * string) :=
  match s with
  | String a r1 =>
      (match r1 with
       | String b r2 =>
           (if Ascii.eqb a "3" && isdigit b && (digit_value b <=? 1)
            then [(30 + digit_value b, r2)] else [])
           ++ (if (Ascii.eqb a "1" || Ascii.eqb a "2") && isdigit b
               then [(10 * digit_value a + digit_value b, r2)] else [])
           ++ (if Ascii.eqb a "0" && isdigit b && (1 <=? digit_value b)
               then [(digit_value b, r2)] else [])
       | EmptyString => []
       end)
      ++ (if isdigit a && (1 <=? digit_value a) then [(digit_value a, r1)] else [])
      ++ (match r1 with
          | String b r2 =>
              if Ascii.eqb a " " && isdigit b && (1 <=? digit_value b)
              then [(digit_value b, r2)] else []
          | EmptyString => []
          end)
  | EmptyString => []
  end.

(** The directive [%Y] is [\d\d\d\d]. *)
Definition match_Y (s : string) : option (Z * string) :=
  match s with
  | String a (String b (String c (String d r))) =>
      if isdigit a && isdigit b && isdigit c && isdigit d
      then Some (1000 * digit_value a + 100 * digit_value b
                 + 10 * digit_value c + digit_value d, r)
      else None
  | _ => None
  end.

Definition match_slash (s : string) : option string :=
  match s with
  | String c r => if Ascii.eqb c "/" then Some r else None
  | EmptyString => None
  end.

(** First success of [k] over the alternatives, as backtracking does. *)
Fixpoint first_success {A B : Type} (k : A -> option B) (l : list A) : option B :=
  match l with
  | [] => None
  | a :: l' => match k a with
               | Some b => Some b
               | None => first_success k l'
               end
  end.

(** [format_regex.match(data_string)]: month, day, year and what is left. *)
Definition regex_match (s : string) : option (Z * Z * Z * string) :=
  first_success
    (fun '(m, r1) =>
       match match_slash r1 with
       | Some r2 =>
           first_success
             (fun '(d, r3) =>
                match match_slash r3 with
                | Some r4 =>
                    match match_Y r4 with
                    | Some (y, r5) => Some (m, d, y, r5)
                    | None => None
                    end
                | None => None
                end)
             (alts_d r2)
       | None => None
       end)
    (alts_m s).

Definition is_leap (y : Z) : bool :=
  (y mod 4 =? 0) && (negb (y mod 100 =? 0) || (y mod 400 =? 0)).

Definition days_in_month (y m : Z) : Z :=
  if m =? 2 then (if is_leap y then 29 else 28)
  else if (m =? 4) || (m =? 6) || (m =? 9) || (m =? 11) then 30
  else 31.

(** The parsed date as (year, month, day), or the [ValueError] raised. *)
Definition strptime (data_string : string) : (Z * Z * Z) + error :=
  match regex_match data_string with
  | None => inr (NoMatch data_string format)
  | Some (m, d, y, rest) =>
      match rest with
      | String _ _ => inr (UnconvertedRemains rest)
      | EmptyString =>
          if (1 <=? y) && (d <=? days_in_month y m)
          then inl (y, m, d)
          else inr (OutOfRange y m d)
      end
  end.

End Strptime.

(* ================================================================= *)
(** ** Reading a label back *)

Module Decode.
Import PyStr.

(** The leading decimal digits of a string, and what follows them. *)
Fixpoint take_uint (s : string) : uint * string :=
  match s with
  | EmptyString => (Nil, EmptyString)
  | String c s' =>
      let '(d, r) := take_uint s' in
      match N.to_nat (code c) with
      | 48%nat => (D0 d, r) | 49%nat => (D1 d, r) | 50%nat => (D2 d, r)
      | 51%nat => (D3 d, r) | 52%nat => (D4 d, r) | 53%nat => (D5 d, r)
      | 54%nat => (D6 d, r) | 55%nat => (D7 d, r) | 56%nat => (D8 d, r)
      | 57%nat => (D9 d, r)
      | _ => (Nil, s)
      end
  end.

Definition no_leading_digit (s : string) : Prop :=
  match s with
  | EmptyString => True
  | String c _ => isdigit c = false
  end.

Definition take_int (s : string) : Z * string :=
  match s with
  | String "-" s' => let '(d, r) := take_uint s' in (- Z.of_N (N.of_uint d), r)
  | _ => let '(d, r) := take_uint s in (Z.of_N (N.of_uint d), r)
  end.

(** Year and month of a text of the shape year, dash, month. *)
Definition year_month (s : string) : Z * Z :=
  let '(y, r) := take_int s in
  match r with
  | String _ r' => (y, fst (take_int r'))
  | EmptyString => (y, 0)
  end.

End Decode.

(* ================================================================= *)
(** ** Exceptions and dictionaries *)

Inductive exn : Type :=
| SystemExit                       (* [sys.exit()] with no argument *)
| KeyError (key : string)
| AttributeError
| TypeError
| ValueError (e : Strptime.error)
| StopIteration.

Inductive outcome (A : Type) : Type :=
| Ok (a : A)
| Raise (e : exn).
Arguments Ok {A} a.
Arguments Raise {A} e.

Definition bind {A B : Type} (m : outcome A) (k : A -> outcome B) : outcome B :=
  match m with
  | Ok a => k a
  | Raise e => Raise e
  end.

Notation "x <- m ;; k" := (bind m (fun x => k))
  (at level 61, m at next level, right associativity).

(** A loop whose body may raise: the first exception ends it. *)
Fixpoint mapM {A B : Type} (f : A -> outcome B) (l : list A) : outcome (list B) :=
  match l with
  | [] => Ok []
  | a :: l' => b <- f a ;; bs <- mapM f l' ;; Ok (b :: bs)
  end.

Module Dict.
Section WithKey.
Context {K V : Type} (eqb : K -> K -> bool).

(** A [dict]: keys in insertion order, no key twice. *)
Definition t := list (K * V).

Fixpoint get (k : K) (d : t) : option V :=
  match d with
  | [] => None
  | (k', v) :: d' => if eqb k k' then Some v else get k d'
  end.

(** [k in d]. *)
Definition mem (k : K) (d : t) : bool :=
  match get k d with Some _ => true | None => false end.

(** [d[k] = v]: a present key keeps its place, a new one goes last. *)
Fixpoint set (k : K) (v : V) (d : t) : t :=
  match d with
  | [] => [(k, v)]
  | (k', v') :: d' => if eqb k k' then (k, v) :: d' else (k', v') :: set k v d'
  end.

Definition keys (d : t) : list K := map fst d.
Definition values (d : t) : list V := map snd d.
End WithKey.
End Dict.

(** One point's entry of [result_dict]: column name to value. *)
Definition record := list (string * pyval).
Definition rec_get (k : string) (v : record) : option pyval := Dict.get String.eqb k v.
Definition rec_mem (k : string) (v : record) : bool := Dict.mem String.eqb k v.
Definition rec_set (k : string) (x : pyval) (v : record) : record := Dict.set String.eqb k x v.

(** [v[k]], raising [KeyError] on a missing key. *)
Definition rec_item (k : string) (v : record) : outcome pyval :=
  match rec_get k v with
  | Some x => Ok x
  | None => Raise (KeyError k)
  end.

(* ================================================================= *)
(** ** The script *)

Module Era.
Import Units PyStr.

(** The block of variables at the top of the script.  [startdate] is the
    value of [np.datetime64(startdate)] for a start written YYYY-MM. *)
Record config : Type := {
  varname : string;
  obnum : string;
  obname : string;
  obdate : string;
  startdate : Np.datetime64M;
  standard_date : bool
}.

(** The script as distributed. *)
Definition default_config : config := {|
  varname := "temp";
  obnum := "OBS_NUM";
  obname := "OBS_NAME";
  obdate := "OBS_DATE";
  startdate := Np.of_year_month 2018 1;
  standard_date := false
|}.

(** One row of the point file. *)
Record point : Type := {
  pt_id : obs_id;
  pt_name : pyval;
  pt_date : pyval;
  pt_x : float;
  pt_y : float
}.

(** The opened raster: band count, grid size, the affine index of a
    coordinate pair, and the cell of a band (bands are numbered from 1). *)
Record raster : Type := {
  count : nat;
  height : Z;
  width : Z;
  index : float -> float -> Z * Z;
  read : nat -> Z -> Z -> float
}.

Definition result_dict := list (obs_id * record).

(** [point_data[obnum].is_unique]. *)
Fixpoint is_unique (ids : list obs_id) : bool :=
  match ids with
  | [] => true
  | i :: rest => negb (existsb (obs_id_eqb i) rest) && is_unique rest
  end.

Definition varname_ok (cfg : config) : bool :=
  String.eqb (varname cfg) "temp" || String.eqb (varname cfg) "precip".

Definition nl : string := String (ascii_of_nat 10) EmptyString.
Definition dquote : string := String (ascii_of_nat 34) EmptyString.

Definition msg_duplicate : string :=
  nl ++ " FAIL: unique ID column in the input file contains duplicate values, cannot proceed.".
Definition msg_varname : string :=
  nl ++ " FAIL: variable name must be set to either " ++ dquote ++ "temp" ++ dquote
     ++ " or " ++ dquote ++ "precip" ++ dquote.

(** Lines 102-110: the record of one point, with its raster row and column. *)
Definition new_record (cfg : config) (r : raster) (p : point) : record :=
  let '(row, col) := index r (pt_x p) (pt_y p) in
  rec_set "RASTER_COL" (PInt col)
    (rec_set "RASTER_ROW" (PInt row)
       (rec_set (obdate cfg) (pt_date p)
          (rec_set (obname cfg) (pt_name p) []))).

Definition index_points (cfg : config) (r : raster) (pts : list point) : result_dict :=
  fold_left (fun rd p => Dict.set obs_id_eqb (pt_id p) (new_record cfg r p) rd) pts [].

Definition as_int (x : pyval) : outcome Z :=
  match x with
  | PInt n => Ok n
  | _ => Raise TypeError
  end.

Definition out_of_grid (r : raster) (rrow rcol : Z) : bool :=
  (rrow <? 0) || (height r <=? rrow) || (rcol <? 0) || (width r <=? rcol).

Definition ym_key (label : string) : string := "YM-" ++ label.

(** Lines 118-126: one point at one band.  The stored value is [None]
    outside the grid and the converted, rounded cell inside it. *)
Definition sample_point (cfg : config) (r : raster) (band_index : nat)
    (yearmonth : Np.datetime64M) (v : record) : outcome record :=
  rrow <- (x <- rec_item "RASTER_ROW" v ;; as_int x) ;;
  rcol <- (x <- rec_item "RASTER_COL" v ;; as_int x) ;;
  if out_of_grid r rrow rcol
  then Ok (rec_set (ym_key (Np.str_M yearmonth)) PNone v)
  else
    let climval := read r band_index rrow rcol in
    let climval_new := round4 (convert_units (varname cfg) climval) in
    Ok (rec_set (ym_key (Np.str_M yearmonth)) (PFloat climval_new) v).

(** The inner loop writes into [result_dict[k]], which is the very record
    [v] being visited. *)
Definition sample_band (cfg : config) (r : raster) (band_index : nat)
    (yearmonth : Np.datetime64M) (rd : result_dict) : outcome result_dict :=
  mapM (fun '(k, v) => v' <- sample_point cfg r band_index yearmonth v ;; Ok (k, v')) rd.

(** Lines 116-127: the bands in order, [yearmonth] advancing by one month. *)
Fixpoint band_loop (cfg : config) (r : raster) (bands : list nat)
    (yearmonth : Np.datetime64M) (rd : result_dict)
    : outcome (result_dict * Np.datetime64M) :=
  match bands with
  | [] => Ok (rd, yearmonth)
  | band_index :: rest =>
      rd' <- sample_band cfg r band_index yearmonth rd ;;
      band_loop cfg r rest (yearmonth + 1) rd'
  end.

(** [range(1, raster.count + 1)]. *)
Definition band_range (r : raster) : list nat := seq 1 (count r).

(** [np.datetime_as_string(numdate, unit='M').item()]: the argument must
    already be a numpy datetime. *)
Definition datetime_as_string_M (numdate : pyval) : outcome string :=
  match numdate with
  | PDatetime64 y m _ => Ok (Np.iso_year_month y m)
  | _ => Raise TypeError
  end.

(** Lines 132-137 on the raw value [v[obdate]]: the key of the point's own
    observation month.  With [standard_date] false the text is stripped and
    parsed as month/day/year, then turned into a numpy datetime; otherwise
    the raw value goes to numpy as it is. *)
Definition date_key (cfg : config) (raw : pyval) : outcome string :=
  numdate <-
    (if negb (standard_date cfg)
     then match raw with
          | PStr s =>
              match Strptime.strptime (strip s) with
              | inl (y, m, d) => Ok (PDatetime64 y m d)
              | inr e => Raise (ValueError e)
              end
          | _ => Raise AttributeError
          end
     else Ok raw) ;;
  s <- datetime_as_string_M numdate ;;
  Ok (ym_key s).

Definition resolve_key (cfg : config) (v : record) : outcome string :=
  raw <- rec_item (obdate cfg) v ;;
  date_key cfg raw.

(** Lines 138-142. *)
Definition match_point (cfg : config) (v : record) : outcome record :=
  obyrmonth <- resolve_key cfg v ;;
  matchdate <-
    (if rec_mem obyrmonth v then rec_item obyrmonth v else Ok PNone) ;;
  Ok (rec_set "MATCH_VALUE" matchdate v).

Definition match_loop (cfg : config) (rd : result_dict) : outcome result_dict :=
  mapM (fun '(k, v) => v' <- match_point cfg v ;; Ok (k, v')) rd.

(** Lines 145-153: header from the first record, then one row per point. *)
Definition result_list (cfg : config) (rd : result_dict) : outcome (list (list pyval)) :=
  match rd with
  | [] => Raise StopIteration
  | (_, first) :: _ =>
      let header := PStr (obnum cfg) :: map PStr (Dict.keys first) in
      Ok (header :: map (fun '(k, v) => pyval_of_id k :: Dict.values v) rd)
  end.

(** What the run does to the outside world, in order. *)
Inductive event : Type :=
| MakeOutputFolder
| ReadPointFile
| Print (text : string)
| OpenRaster
| Plot
| WriteCsv (path : string) (rows : list (list pyval)).

(** What the script is given: the point file, the raster, today's date and
    whether the output folder is already there. *)
Record world : Type := {
  points : list point;
  the_raster : raster;
  today : string;
  outfolder_exists : bool
}.

Definition outpath (cfg : config) (w : world) : string :=
  "output/" ++ varname cfg ++ "_" ++ today w ++ ".csv".

(** Lines 99-142 once the preconditions hold: the three passes. *)
Definition compute (cfg : config) (w : world) : outcome result_dict :=
  let rd0 := index_points cfg (the_raster w) (points w) in
  st <- band_loop cfg (the_raster w) (band_range (the_raster w)) (startdate cfg) rd0 ;;
  match_loop cfg (fst st).

Definition setup_events (w : world) : list event :=
  ((if outfolder_exists w then [] else [MakeOutputFolder]) ++ [ReadPointFile])%list.

(** The closing message, lines 170-172. *)
Definition msg_done (cfg : config) (w : world) (rows : list (list pyval)) : string :=
  nl ++ " Done, wrote " ++ digits (N.of_nat (List.length rows))
     ++ " rows with " ++ digits (N.of_nat (List.length (hd [] rows)))
     ++ " values for " ++ varname cfg ++ " data to " ++ outpath cfg w.

(** The whole run: the events in order and how it ends. *)
Definition main (cfg : config) (w : world) : list event * outcome unit :=
  if negb (is_unique (map pt_id (points w)))
  then ((setup_events w ++ [Print msg_duplicate])%list, Raise SystemExit)
  else if negb (varname_ok cfg)
  then ((setup_events w ++ [Print msg_varname])%list, Raise SystemExit)
  else
    match compute cfg w with
    | Raise e => ((setup_events w ++ [OpenRaster; OpenRaster])%list, Raise e)
    | Ok rd =>
        match result_list cfg rd with
        | Raise e => ((setup_events w ++ [OpenRaster; OpenRaster])%list, Raise e)
        | Ok rows =>
            ((setup_events w
                ++ [OpenRaster; OpenRaster; OpenRaster; Plot;
                    WriteCsv (outpath cfg w) rows;
                    Print (msg_done cfg w rows)])%list,
             Ok tt)
        end
    end.

(** The exit status of the interpreter: 0 on normal completion and on
    [sys.exit()] without argument, 1 on any other uncaught exception. *)
Definition exit_status (o : outcome unit) : Z :=
  match o with
  | Ok _ => 0
  | Raise SystemExit => 0
  | Raise _ => 1
  end.

Definition is_raster_io (e : event) : bool :=
  match e with
  | OpenRaster | Plot => true
  | _ => false
  end.

Definition output_file (tr : list event) : option (list (list pyval)) :=
  fold_left (fun acc e => match e with WriteCsv _ rows => Some rows | _ => acc end) tr None.

Definition printed (tr : list event) : list string :=
  flat_map (fun e => match e with Print s => [s] | _ => [] end) tr.

(** *** Vocabulary for the statements *)

(** The name and date columns of the point file do not look like period
    columns, and the date column is not one of the two raster columns. *)
Definition columns_ok (cfg : config) : bool :=
  negb (startswith "YM-" (obname cfg))
  && negb (startswith "YM-" (obdate cfg))
  && negb (String.eqb (obdate cfg) "RASTER_ROW")
  && negb (String.eqb (obdate cfg) "RASTER_COL").

(** The period columns of a record, in order, without the prefix. *)
Definition period_labels (v : record) : list string :=
  map (fun k => substring 3 (String.length k - 3) k)
      (filter (startswith "YM-") (Dict.keys v)).

(** The cell address the indexing pass gives a point. *)
Definition cell_address (r : raster) (p : point) : Z * Z :=
  index r (pt_x p) (pt_y p).

Definition point_out_of_grid (r : raster) (p : point) : bool :=
  out_of_grid r (fst (cell_address r p)) (snd (cell_address r p)).

(** What the sampling pass stores for a cell address at a band. *)
Definition cell_value (cfg : config) (r : raster) (band_index : nat)
    (rrow rcol : Z) : pyval :=
  if out_of_grid r rrow rcol then PNone
  else PFloat (round4 (convert_units (varname cfg) (read r band_index rrow rcol))).

(** The record of a point in a result, by its unique ID. *)
Definition record_of (rd : result_dict) (i : obs_id) : option record :=
  Dict.get obs_id_eqb i rd.

(** The record carries the cell address the indexing pass gave it. *)
Definition well_indexed (v : record) (cell : Z * Z) : Prop :=
  rec_get "RASTER_ROW" v = Some (PInt (fst cell))
  /\ rec_get "RASTER_COL" v = Some (PInt (snd cell)).

(** One record through all the bands: what the sampling pass writes into
    the record of a point whose cell address is [(rrow, rcol)]. *)
Fixpoint series (cfg : config) (r : raster) (rrow rcol : Z) (bands : list nat)
    (yearmonth : Np.datetime64M) (v : record) : record :=
  match bands with
  | [] => v
  | band_index :: rest =>
      series cfg r rrow rcol rest (yearmonth + 1)
        (rec_set (ym_key (Np.str_M yearmonth))
           (cell_value cfg r band_index rrow rcol) v)
  end.

Definition sampled_record (cfg : config) (r : raster) (p : point) : record :=
  series cfg r (fst (cell_address r p)) (snd (cell_address r p))
    (band_range r) (startdate cfg) (new_record cfg r p).

Definition sampled (cfg : config) (r : raster) (pts : list point) : result_dict :=
  map (fun p => (pt_id p, sampled_record cfg r p)) pts.

(** The label of band [band_index] (bands are numbered from 1). *)
Definition band_label (cfg : config) (band_index : nat) : string :=
  Np.str_M (startdate cfg + (Z.of_nat band_index - 1)).

Definition sampled_labels (cfg : config) (r : raster) : list string :=
  map (band_label cfg) (band_range r).

(** The labels of [n] months in a row from January of year [y0]. *)
Definition months_from_january (y0 : Z) (n : nat) : list string :=
  map (fun i => Np.iso_year_month (y0 + Z.of_nat i / 12) (Z.of_nat i mod 12 + 1))
      (seq 0 n).

(** [v[k] if k in v else None]. *)
Definition lookup_or_none (k : string) (v : record) : pyval :=
  match rec_get k v with
  | Some x => x
  | None => PNone
  end.

(** Months since year 0 of a label, to compare labels in time. *)
Definition label_month (label : string) : Z :=
  let '(y, m) := Decode.year_month label in 12 * y + m.

(** The row of a point is in the table that was written. *)
Definition row_in_output (cfg : config) (w : world) (p : point) : Prop :=
  exists rows row,
    output_file (fst (main cfg w)) = Some rows
    /\ In row rows /\ hd PNone row = pyval_of_id (pt_id p).

(** The text MM/DD/YYYY of a month, a day and a year, two, two and four
    digits. *)
Definition digit_char (n : Z) : ascii := ascii_of_N (Z.to_N (48 + n)).

Definition two_digits (n : Z) : string :=
  String (digit_char (n / 10)) (String (digit_char (n mod 10)) EmptyString).

Definition four_digits (n : Z) : string :=
  String (digit_char (n / 1000))
    (String (digit_char (n / 100 mod 10)) (two_digits (n mod 100))).

Definition mdy_text (m d y : Z) : string :=
  two_digits m ++ "/" ++ two_digits d ++ "/" ++ four_digits y.

End Era.

(* ================================================================= *)
(** ** A small world to run the script on *)

Module Sample.
Import Era.
Local Open Scope float_scope.

Definition cell (c : float) : Z :=
  if c <? 0 then (-1)%Z else if c <? 1 then 0%Z else if c <? 2 then 1%Z else 2%Z.

(** Twenty-four monthly bands over a 2 x 2 grid; band [b] holds [270 + b]
    kelvin in every cell. *)
Definition grib : raster := {|
  count := 24;
  height := 2;
  width := 2;
  index := fun x y => (cell y, cell x);
  read := fun b _ _ => Units.float_of_small_Z false (270 + Z.of_nat b)
|}.

Definition inside : point := {|
  pt_id := IdInt 1; pt_name := PStr "Providence";
  pt_date := PStr "03/15/2019"; pt_x := 0.5; pt_y := 0.5 |}.

Definition late : point := {|
  pt_id := IdInt 2; pt_name := PStr "Newport";
  pt_date := PStr " 1/5/2030 "; pt_x := 1.5; pt_y := 0.25 |}.

Definition outside : point := {|
  pt_id := IdInt 3; pt_name := PStr "Atlantic";
  pt_date := PStr "07/04/2018"; pt_x := 7.5; pt_y := 0.5 |}.

Definition iso_text : point := {|
  pt_id := IdInt 4; pt_name := PStr "Bristol";
  pt_date := PStr "2019-03-15"; pt_x := 0.5; pt_y := 1.5 |}.

Definition twin : point := {|
  pt_id := IdInt 1; pt_name := PStr "Warwick";
  pt_date := PStr "05/01/2018"; pt_x := 1.5; pt_y := 1.5 |}.

Definition field (pts : list point) : world := {|
  points := pts; the_raster := grib; today := "2026-01-21";
  outfolder_exists := true |}.

Definition standard_config : config := {|
  varname := "temp"; obnum := "OBS_NUM"; obname := "OBS_NAME";
  obdate := "OBS_DATE"; startdate := Np.of_year_month 2018 1;
  standard_date := true |}.

Definition wind_config : config := {|
  varname := "wind"; obnum := "OBS_NUM"; obname := "OBS_NAME";
  obdate := "OBS_DATE"; startdate := Np.of_year_month 2018 1;
  standard_date := false |}.

End Sample.

(* ================================================================= *)
(** ** The table the run writes *)

Module Table.
Import Era PyStr.

(** The name and date columns are two different columns, neither of them
    one of the columns the script adds. *)
Definition columns_plain (cfg : config) : bool :=
  columns_ok cfg
  && negb (String.eqb (obname cfg) (obdate cfg))
  && negb (String.eqb (obname cfg) "RASTER_ROW")
  && negb (String.eqb (obname cfg) "RASTER_COL")
  && negb (String.eqb (obname cfg) "MATCH_VALUE")
  && negb (String.eqb (obdate cfg) "MATCH_VALUE").

(** The date of the point resolves to some key. *)
Definition resolves (cfg : config) (p : point) : Prop :=
  exists key, date_key cfg (pt_date p) = Ok key.

(** What the matching pass stores for a point: the entry of its own month
    in its sampled record, [None] when there is none. *)
Definition match_value (cfg : config) (r : raster) (p : point) : pyval :=
  match date_key cfg (pt_date p) with
  | Ok key => lookup_or_none key (sampled_record cfg r p)
  | Raise _ => PNone
  end.

Definition final_record (cfg : config) (r : raster) (p : point) : record :=
  rec_set "MATCH_VALUE" (match_value cfg r p) (sampled_record cfg r p).

(** The entries the sampling pass adds for a cell address, band by band. *)
Fixpoint series_entries (cfg : config) (r : raster) (rrow rcol : Z)
    (bands : list nat) (yearmonth : Np.datetime64M) : record :=
  match bands with
  | [] => []
  | band_index :: rest =>
      (ym_key (Np.str_M yearmonth), cell_value cfg r band_index rrow rcol)
        :: series_entries cfg r rrow rcol rest (yearmonth + 1)
  end.

Definition header_row (cfg : config) (r : raster) : list pyval :=
  map PStr
    ([obnum cfg; obname cfg; obdate cfg; "RASTER_ROW"; "RASTER_COL"]
       ++ map ym_key (sampled_labels cfg r) ++ ["MATCH_VALUE"])%list.

Definition table_row (cfg : config) (r : raster) (p : point) : list pyval :=
  (pyval_of_id (pt_id p) :: pt_name p :: pt_date p
     :: PInt (fst (cell_address r p)) :: PInt (snd (cell_address r p))
     :: map (fun b => cell_value cfg r b (fst (cell_address r p))
                        (snd (cell_address r p)))
            (band_range r)
     ++ [match_value cfg r p])%list.

Definition table (cfg : config) (w : world) : list (list pyval) :=
  header_row cfg (the_raster w) :: map (table_row cfg (the_raster w)) (points w).

(** A month or a day written with or without its leading zero. *)
Definition short_digits (n : Z) : string :=
  if n <? 10 then String (digit_char n) EmptyString else two_digits n.

Definition date_field (padded : bool) (n : Z) : string :=
  if padded then two_digits n else short_digits n.

Definition date_text (pm pd : bool) (m d y : Z) : string :=
  date_field pm m ++ "/" ++ date_field pd d ++ "/" ++ four_digits y.

(** The run reaches its end and writes the table. *)
Definition run_conditions (cfg : config) (w : world) : Prop :=
  is_unique (map pt_id (points w)) = true
  /\ varname_ok cfg = true
  /\ points w <> []
  /\ forall p, In p (points w) -> resolves cfg p.

End Table.

Module Sample2.
Import Era.
Local Open Scope float_scope.

(** Three bands from November 2018, into the next year. *)
Definition autumn : raster := {|
  count := 3;
  height := 2;
  width := 2;
  index := fun x y => (Sample.cell y, Sample.cell x);
  read := fun b r c => Units.float_of_small_Z false (Z.of_nat b + r + 2 * c)
|}.

Definition autumn_config : config := {|
  varname := "precip"; obnum := "OBS_NUM"; obname := "OBS_NAME";
  obdate := "OBS_DATE"; startdate := Np.of_year_month 2018 11;
  standard_date := false |}.

Definition autumn_standard : config := {|
  varname := "precip"; obnum := "OBS_NUM"; obname := "OBS_NAME";
  obdate := "OBS_DATE"; startdate := Np.of_year_month 2018 11;
  standard_date := true |}.

Definition stamped : point := {|
  pt_id := IdStr "a7"; pt_name := PStr "Cranston";
  pt_date := PDatetime64 2018 12 24; pt_x := 1.5; pt_y := 0.5 |}.

Definition stamped_late : point := {|
  pt_id := IdStr "b2"; pt_name := PStr "Tiverton";
  pt_date := PDatetime64 2019 6 1; pt_x := 0.5; pt_y := 1.5 |}.

Definition undated : point := {|
  pt_id := IdStr "c9"; pt_name := PStr "Foster";
  pt_date := PNone; pt_x := 0.5; pt_y := 0.5 |}.

Definition short_dated : point := {|
  pt_id := IdStr "d4"; pt_name := PStr "Exeter";
  pt_date := PStr "1/9/2019"; pt_x := 0.5; pt_y := 0.5 |}.

Definition far : point := {|
  pt_id := IdStr "e1"; pt_name := PStr "Block Island";
  pt_date := PStr "11/30/2018"; pt_x := -3.5; pt_y := 0.5 |}.

Definition survey (pts : list point) : world := {|
  points := pts; the_raster := autumn; today := "2026-01-21";
  outfolder_exists := false |}.

End Sample2.

(* ================================================================= *)
(** ** The rounding on sample values *)

Module UnitsFacts.
Import Units.
Local Open Scope float_scope.

Example round4_up : round4 1.00005 = 1.0001.
Proof. vm_compute. reflexivity. Qed.

Example round4_below_half : round4 0.00015 = 0.0001.
Proof. vm_compute. reflexivity. Qed.

Example round4_negative : round4 (-12.345678) = -12.3457.
Proof. vm_compute. reflexivity. Qed.

Example round4_ties_to_even : round4 0.03125 = 0.0312 /\ round4 0.09375 = 0.0938.
Proof. vm_compute. split; reflexivity. Qed.

Example round4_large : round4 1e15 = 1e15.
Proof. vm_compute. reflexivity. Qed.

Example round4_celsius : round4 (convert_units "temp" 285.5) = 13.35.
Proof. vm_compute. reflexivity. Qed.

End UnitsFacts.

(* ================================================================= *)
(** ** Facts about strings and labels *)

Module StrFacts.
Import PyStr.

Lemma append_nil_r (s : string) : s ++ "" = s.
Proof. induction s; simpl; congruence. Qed.

Lemma append_assoc (a b c : string) : (a ++ b) ++ c = a ++ (b ++ c).
Proof. induction a; simpl; congruence. Qed.

Lemma lstrip_spaces (l s : string) :
  all_space l = true -> lstrip (l ++ s) = lstrip s.
Proof.
  induction l as [|c l IH]; simpl; intro H; [reflexivity|].
  apply andb_true_iff in H as [Hc Hl]. rewrite Hc. auto.
Qed.

Lemma lstrip_all_space (s : string) : all_space s = true -> lstrip s = "".
Proof.
  intro H. rewrite <- (append_nil_r s). rewrite lstrip_spaces by assumption.
  reflexivity.
Qed.

Lemma rstrip_all_space (s : string) : all_space s = true -> rstrip s = "".
Proof.
  induction s as [|c s IH]; simpl; intro H; [reflexivity|].
  apply andb_true_iff in H as [Hc Hs]. rewrite (IH Hs), Hc. reflexivity.
Qed.

Lemma rstrip_spaces (s r : string) :
  all_space r = true -> rstrip (s ++ r) = rstrip s.
Proof.
  intro H. induction s as [|c s IH]; simpl.
  - apply rstrip_all_space; assumption.
  - rewrite IH. reflexivity.
Qed.

(** What is left of [s ++ r] once leading blanks are gone. *)
Lemma lstrip_append (s r : string) :
  all_space r = true ->
  lstrip (s ++ r) = lstrip s ++ (if all_space s then "" else r).
Proof.
  intro H. induction s as [|c s IH]; simpl.
  - apply lstrip_all_space; assumption.
  - destruct (isspace c); simpl; [exact IH | reflexivity].
Qed.

Lemma strip_padded (l s r : string) :
  all_space l = true -> all_space r = true ->
  strip (l ++ s ++ r) = strip s.
Proof.
  intros Hl Hr. unfold strip.
  rewrite lstrip_spaces by assumption.
  rewrite lstrip_append by assumption.
  destruct (all_space s).
  - rewrite append_nil_r. reflexivity.
  - apply rstrip_spaces; assumption.
Qed.

End StrFacts.

Module LabelFacts.
Import PyStr Decode.

Lemma take_uint_digits (d : uint) (rest : string) :
  no_leading_digit rest ->
  take_uint (NilEmpty.string_of_uint d ++ rest) = (d, rest).
Proof.
  intro H. induction d; simpl; try (rewrite IHd; reflexivity).
  destruct rest as [|c rest]; [reflexivity|].
  simpl in H. cbn [take_uint]. destruct (take_uint rest) as [d r].
  unfold isdigit in H.
  destruct (N.to_nat (code c)) as [|n] eqn:E.
  - reflexivity.
  - do 47 (destruct n as [|n]; [reflexivity|]).
    do 10 (destruct n as [|n];
           [exfalso; apply (f_equal N.of_nat) in E; rewrite N2Nat.id in E;
            rewrite E in H; discriminate |]).
    reflexivity.
Qed.

Lemma zeros_digits (k : nat) (d : uint) :
  zeros k ++ NilEmpty.string_of_uint d = NilEmpty.string_of_uint (Nat.iter k D0 d).
Proof. induction k; simpl; congruence. Qed.

Lemma of_uint_zeros (k : nat) (d : uint) : N.of_uint (Nat.iter k D0 d) = N.of_uint d.
Proof. induction k; simpl; auto. Qed.

Lemma to_uint_nonnil (n : N) : N.to_uint n <> Nil.
Proof.
  destruct n; simpl; [discriminate | apply DecimalPos.Unsigned.to_uint_nonnil].
Qed.

(** A padded number starts with a digit, never with the sign. *)
Lemma padded_head (k : nat) (n : N) (rest : string) :
  exists c tl, zero_pad k (digits n) ++ rest = String c tl /\ c <> "-"%char.
Proof.
  unfold zero_pad, digits. rewrite zeros_digits.
  pose proof (to_uint_nonnil n) as Hn.
  destruct (k - String.length (NilEmpty.string_of_uint (N.to_uint n)))%nat;
    [destruct (N.to_uint n) | ]; simpl;
    try congruence; eexists; eexists; (split; [reflexivity | discriminate]).
Qed.

Lemma take_uint_padded (k : nat) (n : N) (rest : string) :
  no_leading_digit rest ->
  exists d, take_uint (zero_pad k (digits n) ++ rest) = (d, rest) /\ N.of_uint d = n.
Proof.
  intro H. unfold zero_pad, digits. rewrite zeros_digits.
  eexists. split; [apply take_uint_digits; assumption|].
  rewrite of_uint_zeros. apply DecimalN.Unsigned.of_to.
Qed.

Lemma take_int_fmt (w : nat) (z : Z) (rest : string) :
  no_leading_digit rest ->
  take_int (fmt_0d w z ++ rest) = (z, rest).
Proof.
  intro H. unfold fmt_0d. destruct (z <? 0) eqn:Hz.
  - apply Z.ltb_lt in Hz. cbn [append take_int].
    destruct (take_uint_padded (w - 1) (Z.to_N (- z)) rest H) as [d [-> Hd]].
    rewrite Hd, Z2N.id by lia. f_equal. lia.
  - apply Z.ltb_ge in Hz.
    destruct (padded_head w (Z.to_N z) rest) as [c [tl [E Hc]]].
    destruct (take_uint_padded w (Z.to_N z) rest H) as [d [Ht Hd]].
    assert (G : take_int (String c tl) = (Z.of_N (N.of_uint d), rest)).
    { rewrite <- E in *. unfold take_int. rewrite E.
      destruct c as [[] [] [] [] [] [] [] []]; try (rewrite <- E, Ht; reflexivity).
      congruence. }
    rewrite E, G, Hd, Z2N.id by lia. reflexivity.
Qed.

Lemma year_month_iso (y m : Z) : year_month (Np.iso_year_month y m) = (y, m).
Proof.
  unfold year_month, Np.iso_year_month.
  rewrite take_int_fmt by reflexivity. cbn [append].
  rewrite <- (StrFacts.append_nil_r (fmt_0d 2 m)).
  rewrite take_int_fmt by exact I. reflexivity.
Qed.

Lemma iso_year_month_inj (y m y' m' : Z) :
  Np.iso_year_month y m = Np.iso_year_month y' m' -> y = y' /\ m = m'.
Proof.
  intro H. apply (f_equal year_month) in H.
  rewrite !year_month_iso in H. inversion H. auto.
Qed.

Lemma str_M_inj (t t' : Z) : Np.str_M t = Np.str_M t' -> t = t'.
Proof.
  unfold Np.str_M, Np.year_of, Np.month_of. intro H.
  apply iso_year_month_inj in H as [Hy Hm].
  rewrite (Z.div_mod t 12), (Z.div_mod t' 12) by lia. lia.
Qed.

End LabelFacts.

(* ================================================================= *)
(** ** Facts about dictionaries and loops *)

Module DictFacts.
Local Open Scope list_scope.
Section WithKey.
Context {K V : Type} (eqb : K -> K -> bool).
Hypothesis eqb_eq : forall a b, eqb a b = true <-> a = b.

Lemma eqb_refl (a : K) : eqb a a = true.
Proof. apply eqb_eq. reflexivity. Qed.

Lemma eqb_neq (a b : K) : a <> b -> eqb a b = false.
Proof.
  intro H. destruct (eqb a b) eqn:E; [|reflexivity].
  apply eqb_eq in E. contradiction.
Qed.

Lemma get_set_same (k : K) (x : V) (d : Dict.t) :
  Dict.get eqb k (Dict.set eqb k x d) = Some x.
Proof.
  induction d as [|[k' v'] d IH]; simpl.
  - rewrite eqb_refl. reflexivity.
  - destruct (eqb k k') eqn:E; simpl; rewrite ?eqb_refl, ?E; auto.
Qed.

Lemma get_set_other (k k' : K) (x : V) (d : Dict.t) :
  k <> k' -> Dict.get eqb k (Dict.set eqb k' x d) = Dict.get eqb k d.
Proof.
  intro H. induction d as [|[k0 v0] d IH]; simpl.
  - rewrite eqb_neq by assumption. reflexivity.
  - destruct (eqb k' k0) eqn:E; simpl.
    + apply eqb_eq in E. subst k0. rewrite eqb_neq by assumption. reflexivity.
    + rewrite IH. reflexivity.
Qed.

Lemma get_none_keys (k : K) (d : Dict.t (V := V)) :
  Dict.get eqb k d = None <-> ~ In k (Dict.keys d).
Proof.
  induction d as [|[k' v'] d IH]; simpl.
  - tauto.
  - destruct (eqb k k') eqn:E.
    + apply eqb_eq in E. subst. split; [discriminate | tauto].
    + rewrite IH. split; [intros H [G|G]; auto | tauto].
      subst. rewrite eqb_refl in E. discriminate.
Qed.

(** A present key keeps its place; a new key goes last. *)
Lemma keys_set (k : K) (x : V) (d : Dict.t) :
  Dict.keys (Dict.set eqb k x d)
  = if Dict.mem eqb k d then Dict.keys d else Dict.keys d ++ [k].
Proof.
  unfold Dict.mem. induction d as [|[k' v'] d IH]; simpl.
  - reflexivity.
  - destruct (eqb k k') eqn:E; simpl.
    + apply eqb_eq in E. subst. reflexivity.
    + rewrite IH. destruct (Dict.get eqb k d); reflexivity.
Qed.

Lemma set_fresh (k : K) (x : V) (d : Dict.t) :
  ~ In k (Dict.keys d) -> Dict.set eqb k x d = d ++ [(k, x)].
Proof.
  induction d as [|[k' v'] d IH]; simpl; intro H.
  - reflexivity.
  - rewrite eqb_neq by (intro E; apply H; left; congruence).
    rewrite IH by (intro E; apply H; right; exact E). reflexivity.
Qed.

Lemma get_map_fresh {A : Type} (key : A -> K) (f : A -> V) (a : A) (l : list A) :
  NoDup (map key l) -> In a l ->
  Dict.get eqb (key a) (map (fun b => (key b, f b)) l) = Some (f a).
Proof.
  induction l as [|b l IH]; simpl; intros Hnd Hin; [contradiction|].
  inversion Hnd as [|? ? Hb Hl]; subst.
  destruct Hin as [->|Hin].
  - rewrite eqb_refl. reflexivity.
  - rewrite eqb_neq; [auto|].
    intro E. apply Hb. rewrite <- E. apply in_map. assumption.
Qed.
End WithKey.

Lemma obs_id_eqb_eq (a b : obs_id) : obs_id_eqb a b = true <-> a = b.
Proof.
  destruct a, b; simpl; split; intro H; try discriminate; try congruence.
  - apply Z.eqb_eq in H. congruence.
  - inversion H. apply Z.eqb_refl.
  - apply String.eqb_eq in H. congruence.
  - inversion H. apply String.eqb_refl.
Qed.

Lemma str_eqb_eq (a b : string) : String.eqb a b = true <-> a = b.
Proof. apply String.eqb_eq. Qed.

End DictFacts.

Module LoopFacts.
Local Open Scope list_scope.

Lemma mapM_ok {A B : Type} (f : A -> outcome B) (g : A -> B) (l : list A) :
  (forall a, In a l -> f a = Ok (g a)) -> mapM f l = Ok (map g l).
Proof.
  induction l as [|a l IH]; simpl; intro H; [reflexivity|].
  rewrite (H a) by auto. simpl. rewrite IH by auto. reflexivity.
Qed.

Lemma mapM_inv {A B : Type} (f : A -> outcome B) (l : list A) (l' : list B) :
  mapM f l = Ok l' -> Forall2 (fun a b => f a = Ok b) l l'.
Proof.
  revert l'. induction l as [|a l IH]; simpl; intros l' H.
  - inversion H. constructor.
  - destruct (f a) as [b|e] eqn:Ea; simpl in H; [|discriminate].
    destruct (mapM f l) as [bs|e] eqn:El; simpl in H; [|discriminate].
    inversion H. subst. constructor; auto.
Qed.

(** The first element whose body raises ends the loop with its exception. *)
Lemma mapM_raise {A B : Type} (f : A -> outcome B) (l1 l2 : list A) (a : A) (e : exn) :
  (forall x, In x l1 -> exists b, f x = Ok b) ->
  f a = Raise e ->
  mapM f (l1 ++ a :: l2) = Raise e.
Proof.
  induction l1 as [|x l1 IH]; simpl; intros H Ha.
  - rewrite Ha. reflexivity.
  - destruct (H x) as [b Hb]; [auto|]. rewrite Hb. simpl.
    rewrite IH by auto. reflexivity.
Qed.

Lemma mapM_total {A B : Type} (f : A -> outcome B) (l : list A) :
  (forall x, In x l -> exists b, f x = Ok b) -> exists l', mapM f l = Ok l'.
Proof.
  induction l as [|x l IH]; simpl; intro H.
  - eexists. reflexivity.
  - destruct (H x) as [b Hb]; [auto|]. destruct IH as [l' Hl']; [auto|].
    rewrite Hb, Hl'. simpl. eexists. reflexivity.
Qed.

End LoopFacts.

(* ================================================================= *)
(** ** Facts about the three passes *)

Module EraFacts.
Import Era PyStr DictFacts LoopFacts.
Local Open Scope list_scope.

Lemma rec_get_set_same (k : string) (x : pyval) (v : record) :
  rec_get k (rec_set k x v) = Some x.
Proof. apply (get_set_same String.eqb str_eqb_eq). Qed.

Lemma rec_get_set_other (k k' : string) (x : pyval) (v : record) :
  k <> k' -> rec_get k (rec_set k' x v) = rec_get k v.
Proof. apply (get_set_other String.eqb str_eqb_eq). Qed.

Lemma ym_key_prefix (label : string) : startswith "YM-" (ym_key label) = true.
Proof. unfold startswith, ym_key. simpl. destruct label; reflexivity. Qed.

Lemma not_ym_key (k label : string) : startswith "YM-" k = false -> k <> ym_key label.
Proof. intros H E. subst. rewrite ym_key_prefix in H. discriminate. Qed.

Lemma ym_key_inj (a b : string) : ym_key a = ym_key b -> a = b.
Proof. unfold ym_key. simpl. congruence. Qed.

(** A period key written by the sampling pass is never one of the three
    fixed column names the script uses. *)
Lemma fixed_not_ym (k : string) :
  k = "RASTER_ROW" \/ k = "RASTER_COL" \/ k = "MATCH_VALUE" ->
  forall label, k <> ym_key label.
Proof. intros [ -> | [ -> | -> ] ] label; apply not_ym_key; reflexivity. Qed.

Lemma is_unique_NoDup (ids : list obs_id) : is_unique ids = true <-> NoDup ids.
Proof.
  induction ids as [|i ids IH]; simpl.
  - split; [constructor | reflexivity].
  - rewrite andb_true_iff, negb_true_iff, IH. split.
    + intros [H1 H2]. constructor; [|assumption].
      intro Hin. assert (existsb (obs_id_eqb i) ids = true) as E.
      { apply existsb_exists. exists i. split; [assumption|].
        apply obs_id_eqb_eq. reflexivity. }
      congruence.
    + intro H. inversion H as [|? ? Hi Hids]; subst. split; [|assumption].
      destruct (existsb (obs_id_eqb i) ids) eqn:E; [|reflexivity].
      apply existsb_exists in E as [j [Hj Hij]].
      apply obs_id_eqb_eq in Hij. subst. contradiction.
Qed.

(** *** The indexing pass *)

Lemma new_record_indexed (cfg : config) (r : raster) (p : point) :
  well_indexed (new_record cfg r p) (cell_address r p).
Proof.
  unfold well_indexed, new_record, cell_address.
  destruct (index r (pt_x p) (pt_y p)) as [row col]. simpl fst; simpl snd. split.
  - rewrite rec_get_set_other by discriminate. apply rec_get_set_same.
  - apply rec_get_set_same.
Qed.

Lemma new_record_date (cfg : config) (r : raster) (p : point) :
  columns_ok cfg = true ->
  rec_get (obdate cfg) (new_record cfg r p) = Some (pt_date p).
Proof.
  unfold columns_ok, new_record. intro H.
  repeat (apply andb_true_iff in H as [H ?]).
  destruct (index r (pt_x p) (pt_y p)) as [row col].
  do 2 (rewrite rec_get_set_other by (intro E; rewrite E in *; discriminate)).
  apply rec_get_set_same.
Qed.

Lemma index_points_fold (cfg : config) (r : raster) (pts : list point) (acc : result_dict) :
  NoDup (map pt_id pts) ->
  (forall p, In p pts -> ~ In (pt_id p) (Dict.keys acc)) ->
  fold_left (fun rd p => Dict.set obs_id_eqb (pt_id p) (new_record cfg r p) rd) pts acc
  = acc ++ map (fun p => (pt_id p, new_record cfg r p)) pts.
Proof.
  revert acc. induction pts as [|p pts IH]; simpl; intros acc Hnd Hacc.
  - rewrite app_nil_r. reflexivity.
  - inversion Hnd as [|? ? Hp Hpts]; subst.
    rewrite (set_fresh obs_id_eqb obs_id_eqb_eq) by auto.
    rewrite IH; [rewrite <- app_assoc; reflexivity | assumption |].
    intros q Hq. unfold Dict.keys. rewrite map_app, in_app_iff. simpl.
    intros [G|[G|[]]].
    + apply (Hacc q); auto.
    + apply Hp. rewrite G. apply in_map. assumption.
Qed.

Lemma index_points_unique (cfg : config) (r : raster) (pts : list point) :
  is_unique (map pt_id pts) = true ->
  index_points cfg r pts = map (fun p => (pt_id p, new_record cfg r p)) pts.
Proof.
  intro H. apply is_unique_NoDup in H. unfold index_points.
  rewrite index_points_fold; auto.
Qed.

(** *** The sampling pass *)

Lemma sample_point_ok (cfg : config) (r : raster) (b : nat) (ym : Z)
    (v : record) (cell : Z * Z) :
  well_indexed v cell ->
  sample_point cfg r b ym v
  = Ok (rec_set (ym_key (Np.str_M ym)) (cell_value cfg r b (fst cell) (snd cell)) v).
Proof.
  intros [Hr Hc]. unfold sample_point, rec_item, cell_value.
  rewrite Hr, Hc. simpl. destruct (out_of_grid r (fst cell) (snd cell)); reflexivity.
Qed.

Lemma well_indexed_set (v : record) (cell : Z * Z) (label : string) (x : pyval) :
  well_indexed v cell -> well_indexed (rec_set (ym_key label) x v) cell.
Proof.
  intros [Hr Hc]. split; rewrite rec_get_set_other; auto; apply fixed_not_ym; auto.
Qed.

Lemma sample_band_map (cfg : config) (r : raster) (b : nat) (ym : Z)
    (pts : list point) (f : point -> record) :
  (forall p, In p pts -> well_indexed (f p) (cell_address r p)) ->
  sample_band cfg r b ym (map (fun p => (pt_id p, f p)) pts)
  = Ok (map (fun p => (pt_id p,
                       rec_set (ym_key (Np.str_M ym))
                         (cell_value cfg r b (fst (cell_address r p)) (snd (cell_address r p)))
                         (f p))) pts).
Proof.
  unfold sample_band. induction pts as [|p pts IH]; simpl; intro H; [reflexivity|].
  rewrite (sample_point_ok _ _ _ _ _ (cell_address r p)) by auto. simpl.
  rewrite IH by auto. reflexivity.
Qed.

Lemma band_loop_map (cfg : config) (r : raster) (bands : list nat) :
  forall (ym : Z) (pts : list point) (f : point -> record),
  (forall p, In p pts -> well_indexed (f p) (cell_address r p)) ->
  band_loop cfg r bands ym (map (fun p => (pt_id p, f p)) pts)
  = Ok (map (fun p => (pt_id p,
                       series cfg r (fst (cell_address r p)) (snd (cell_address r p))
                         bands ym (f p))) pts,
        ym + Z.of_nat (List.length bands)).
Proof.
  induction bands as [|b bands IH]; intros ym pts f H.
  - simpl. rewrite Z.add_0_r. reflexivity.
  - cbn [band_loop]. rewrite sample_band_map by assumption. cbn [bind].
    rewrite IH.
    + cbn [series List.length]. do 2 f_equal. lia.
    + intros p Hp. apply well_indexed_set. auto.
Qed.

(** The sampling pass never raises, and leaves [yearmonth] one month past
    the last band. *)
Lemma band_loop_sampled (cfg : config) (r : raster) (pts : list point) :
  is_unique (map pt_id pts) = true ->
  band_loop cfg r (band_range r) (startdate cfg) (index_points cfg r pts)
  = Ok (sampled cfg r pts, startdate cfg + Z.of_nat (count r)).
Proof.
  intro H. rewrite index_points_unique by assumption.
  rewrite band_loop_map by (intros; apply new_record_indexed).
  unfold band_range. rewrite length_seq. reflexivity.
Qed.

Lemma series_get_other (cfg : config) (r : raster) (row col : Z) (k : string)
    (bands : list nat) :
  forall (ym : Z) (v : record),
  (forall j, (j < List.length bands)%nat -> k <> ym_key (Np.str_M (ym + Z.of_nat j))) ->
  rec_get k (series cfg r row col bands ym v) = rec_get k v.
Proof.
  induction bands as [|b bands IH]; intros ym v H; [reflexivity|].
  cbn [series]. rewrite IH.
  - apply rec_get_set_other. specialize (H 0%nat). rewrite Z.add_0_r in H.
    apply H. simpl. lia.
  - intros j Hj. specialize (H (S j)).
    replace (ym + 1 + Z.of_nat j) with (ym + Z.of_nat (S j)) by lia.
    apply H. simpl. lia.
Qed.

Lemma series_get_label (cfg : config) (r : raster) (row col : Z) (bands : list nat) :
  forall (i : nat) (ym : Z) (v : record),
  (i < List.length bands)%nat ->
  rec_get (ym_key (Np.str_M (ym + Z.of_nat i))) (series cfg r row col bands ym v)
  = Some (cell_value cfg r (nth i bands 0%nat) row col).
Proof.
  induction bands as [|b bands IH]; intros i ym v Hi; [simpl in Hi; lia|].
  cbn [series]. destruct i as [|i].
  - rewrite Z.add_0_r. rewrite series_get_other.
    + apply rec_get_set_same.
    + intros j _ E. apply ym_key_inj, LabelFacts.str_M_inj in E. lia.
  - replace (ym + Z.of_nat (S i)) with (ym + 1 + Z.of_nat i) by lia.
    apply IH. simpl in Hi. lia.
Qed.

Lemma series_keys (cfg : config) (r : raster) (row col : Z) (bands : list nat) :
  forall (ym : Z) (v : record),
  (forall j, (j < List.length bands)%nat ->
             ~ In (ym_key (Np.str_M (ym + Z.of_nat j))) (Dict.keys v)) ->
  Dict.keys (series cfg r row col bands ym v)
  = Dict.keys v
    ++ map (fun j => ym_key (Np.str_M (ym + Z.of_nat j))) (seq 0 (List.length bands)).
Proof.
  induction bands as [|b bands IH]; intros ym v H.
  - simpl. rewrite app_nil_r. reflexivity.
  - cbn [series List.length seq map].
    assert (Hfresh : ~ In (ym_key (Np.str_M ym)) (Dict.keys v)).
    { specialize (H 0%nat). rewrite Z.add_0_r in H. apply H. simpl. lia. }
    rewrite IH.
    + unfold rec_set. rewrite (set_fresh String.eqb str_eqb_eq) by assumption.
      unfold Dict.keys. rewrite map_app, <- app_assoc. simpl.
      rewrite Z.add_0_r. do 2 f_equal.
      rewrite <- seq_shift, map_map. apply map_ext. intro j. do 2 f_equal. lia.
    + intros j Hj. unfold rec_set.
      rewrite (keys_set String.eqb str_eqb_eq).
      assert (Hj' : ~ In (ym_key (Np.str_M (ym + 1 + Z.of_nat j))) (Dict.keys v)).
      { replace (ym + 1 + Z.of_nat j) with (ym + Z.of_nat (S j)) by lia.
        apply H. simpl. lia. }
      destruct (Dict.mem String.eqb (ym_key (Np.str_M ym)) v); [assumption|].
      rewrite in_app_iff. intros [G|[G|[]]]; [contradiction|].
      apply ym_key_inj, LabelFacts.str_M_inj in G. lia.
Qed.

(** *** What the sampling pass leaves in a record *)

Lemma sampled_record_label (cfg : config) (r : raster) (p : point) (b : nat) :
  (1 <= b <= count r)%nat ->
  rec_get (ym_key (band_label cfg b)) (sampled_record cfg r p)
  = Some (cell_value cfg r b (fst (cell_address r p)) (snd (cell_address r p))).
Proof.
  intro Hb. unfold sampled_record, band_label, band_range.
  replace (Z.of_nat b - 1) with (Z.of_nat (b - 1)) by lia.
  rewrite series_get_label by (rewrite length_seq; lia).
  rewrite seq_nth by lia. do 2 f_equal. lia.
Qed.

Lemma sampled_record_other (cfg : config) (r : raster) (p : point) (k : string) :
  startswith "YM-" k = false ->
  rec_get k (sampled_record cfg r p) = rec_get k (new_record cfg r p).
Proof.
  intro H. unfold sampled_record. apply series_get_other.
  intros j _. apply not_ym_key. assumption.
Qed.

Lemma sampled_record_indexed (cfg : config) (r : raster) (p : point) :
  well_indexed (sampled_record cfg r p) (cell_address r p).
Proof.
  destruct (new_record_indexed cfg r p) as [Hr Hc].
  split; rewrite sampled_record_other by reflexivity; assumption.
Qed.

Lemma sampled_record_date (cfg : config) (r : raster) (p : point) :
  columns_ok cfg = true ->
  rec_get (obdate cfg) (sampled_record cfg r p) = Some (pt_date p).
Proof.
  intro H. rewrite sampled_record_other; [apply new_record_date; assumption|].
  unfold columns_ok in H. repeat (apply andb_true_iff in H as [H ?]).
  apply negb_true_iff. assumption.
Qed.

Lemma in_sampled_labels (cfg : config) (r : raster) (label : string) :
  In label (sampled_labels cfg r)
  <-> exists j, (j < count r)%nat /\ label = Np.str_M (startdate cfg + Z.of_nat j).
Proof.
  unfold sampled_labels, band_range, band_label. rewrite in_map_iff. split.
  - intros [b [E Hb]]. apply in_seq in Hb. exists (b - 1)%nat. split; [lia|].
    rewrite <- E. do 2 f_equal. lia.
  - intros [j [Hj E]]. exists (S j). split; [|apply in_seq; lia].
    rewrite E. do 2 f_equal. lia.
Qed.

Lemma in_keys_set (k k' : string) (x : pyval) (v : record) :
  In k (Dict.keys (rec_set k' x v)) -> k = k' \/ In k (Dict.keys v).
Proof.
  unfold rec_set. rewrite (keys_set String.eqb str_eqb_eq).
  destruct (Dict.mem String.eqb k' v); [auto|].
  rewrite in_app_iff. simpl. intuition.
Qed.

Lemma new_record_keys (cfg : config) (r : raster) (p : point) (k : string) :
  columns_ok cfg = true ->
  In k (Dict.keys (new_record cfg r p)) -> startswith "YM-" k = false.
Proof.
  unfold columns_ok, new_record. intros H Hin.
  repeat (apply andb_true_iff in H as [H ?]).
  destruct (index r (pt_x p) (pt_y p)) as [row col].
  repeat (apply in_keys_set in Hin as [->|Hin]);
    try reflexivity; try (apply negb_true_iff; assumption).
  destruct Hin.
Qed.

Lemma new_record_no_label (cfg : config) (r : raster) (p : point) (label : string) :
  columns_ok cfg = true ->
  ~ In (ym_key label) (Dict.keys (new_record cfg r p)).
Proof.
  intros H Hin. apply (new_record_keys cfg r p _ H) in Hin.
  rewrite ym_key_prefix in Hin. discriminate.
Qed.

(** A period that was not sampled is not a key of the record. *)
Lemma sampled_record_absent (cfg : config) (r : raster) (p : point) (label : string) :
  columns_ok cfg = true ->
  ~ In label (sampled_labels cfg r) ->
  rec_get (ym_key label) (sampled_record cfg r p) = None.
Proof.
  intros H Hl. unfold sampled_record. rewrite series_get_other.
  - apply (get_none_keys String.eqb str_eqb_eq). apply new_record_no_label. assumption.
  - intros j Hj E. apply ym_key_inj in E. apply Hl. apply in_sampled_labels.
    unfold band_range in Hj. rewrite length_seq in Hj. eauto.
Qed.

Lemma substring_all (s : string) : substring 0 (String.length s) s = s.
Proof. induction s; simpl; congruence. Qed.

Lemma strip_ym_key (label : string) :
  substring 3 (String.length (ym_key label) - 3) (ym_key label) = label.
Proof.
  unfold ym_key. simpl. rewrite Nat.sub_0_r. apply substring_all.
Qed.

Lemma filter_none {A : Type} (f : A -> bool) (l : list A) :
  (forall a, In a l -> f a = false) -> filter f l = [].
Proof.
  induction l as [|a l IH]; simpl; intro H; [reflexivity|].
  rewrite (H a) by auto. auto.
Qed.

Lemma unprefix_labels (labels : list string) :
  map (fun k => substring 3 (String.length k - 3) k)
      (filter (startswith "YM-") (map ym_key labels))
  = labels.
Proof.
  induction labels as [|l ls IH]; [reflexivity|].
  cbn [map filter]. rewrite ym_key_prefix. cbn [map]. rewrite strip_ym_key.
  f_equal. exact IH.
Qed.

Lemma period_labels_keys (keys0 : list string) (labels : list string) (v : record) :
  Dict.keys v = keys0 ++ map ym_key labels ->
  (forall k, In k keys0 -> startswith "YM-" k = false) ->
  period_labels v = labels.
Proof.
  intros E H. unfold period_labels. rewrite E, filter_app, filter_none by assumption.
  cbn [app]. apply unprefix_labels.
Qed.

Lemma sampled_record_keys (cfg : config) (r : raster) (p : point) :
  columns_ok cfg = true ->
  Dict.keys (sampled_record cfg r p)
  = Dict.keys (new_record cfg r p) ++ map ym_key (sampled_labels cfg r).
Proof.
  intro H. unfold sampled_record. rewrite series_keys.
  - f_equal. unfold sampled_labels, band_range. rewrite length_seq, map_map.
    rewrite <- seq_shift, map_map. apply map_ext. intro j.
    unfold band_label. do 3 f_equal. lia.
  - intros j _. apply new_record_no_label. assumption.
Qed.

(** *** The matching pass *)

Lemma match_point_ok (cfg : config) (v : record) (raw : pyval) (key : string) :
  rec_get (obdate cfg) v = Some raw ->
  date_key cfg raw = Ok key ->
  match_point cfg v = Ok (rec_set "MATCH_VALUE" (lookup_or_none key v) v).
Proof.
  intros Hraw Hkey. unfold match_point, resolve_key, rec_item.
  rewrite Hraw. cbn [bind]. rewrite Hkey. cbn [bind].
  unfold rec_mem, Dict.mem, lookup_or_none, rec_get.
  destruct (Dict.get String.eqb key v); reflexivity.
Qed.

Lemma match_point_raise (cfg : config) (v : record) (raw : pyval) (e : exn) :
  rec_get (obdate cfg) v = Some raw ->
  date_key cfg raw = Raise e ->
  match_point cfg v = Raise e.
Proof.
  intros Hraw Hkey. unfold match_point, resolve_key, rec_item.
  rewrite Hraw. cbn [bind]. rewrite Hkey. reflexivity.
Qed.


Lemma match_loop_map (cfg : config) (pts : list point) (f g : point -> record) :
  (forall p, In p pts -> match_point cfg (f p) = Ok (g p)) ->
  match_loop cfg (map (fun p => (pt_id p, f p)) pts)
  = Ok (map (fun p => (pt_id p, g p)) pts).
Proof.
  unfold match_loop. induction pts as [|p pts IH]; simpl; intro H; [reflexivity|].
  rewrite H by auto. simpl. rewrite IH by auto. reflexivity.
Qed.

Lemma match_loop_record (cfg : config) (pts : list point) (f : point -> record) :
  forall rd, NoDup (map pt_id pts) ->
  match_loop cfg (map (fun p => (pt_id p, f p)) pts) = Ok rd ->
  forall p, In p pts ->
  exists v, record_of rd (pt_id p) = Some v /\ match_point cfg (f p) = Ok v.
Proof.
  unfold match_loop, record_of.
  induction pts as [|q pts IH]; simpl; intros rd Hnd H p Hp; [contradiction|].
  inversion Hnd as [|? ? Hq Hpts]; subst.
  destruct (match_point cfg (f q)) as [vq|e] eqn:Eq; cbn [bind] in H; [|discriminate].
  destruct (mapM _ (map _ pts)) as [rest|e] eqn:Er; cbn [bind] in H; [|discriminate].
  inversion H; subst. simpl. destruct Hp as [->|Hp].
  - rewrite (eqb_refl obs_id_eqb obs_id_eqb_eq). eauto.
  - rewrite (eqb_neq obs_id_eqb obs_id_eqb_eq).
    + apply (IH rest); auto.
    + intro E. apply Hq. rewrite <- E. apply in_map. assumption.
Qed.

Lemma match_loop_raise (cfg : config) (l1 l2 : list point) (p : point)
    (f : point -> record) (e : exn) :
  (forall q, In q l1 -> exists v, match_point cfg (f q) = Ok v) ->
  match_point cfg (f p) = Raise e ->
  match_loop cfg (map (fun q => (pt_id q, f q)) (l1 ++ p :: l2)) = Raise e.
Proof.
  intros H1 Hp. unfold match_loop. rewrite map_app. cbn [map].
  apply mapM_raise.
  - intros [k v] Hin. apply in_map_iff in Hin as [q [E Hq]]. inversion E; subst.
    destruct (H1 q Hq) as [v' ->]. eexists. reflexivity.
  - rewrite Hp. reflexivity.
Qed.

(** *** The whole run *)

Lemma compute_unique (cfg : config) (w : world) :
  is_unique (map pt_id (points w)) = true ->
  compute cfg w = match_loop cfg (sampled cfg (the_raster w) (points w)).
Proof.
  intro H. unfold compute. rewrite band_loop_sampled by assumption. reflexivity.
Qed.

Lemma compute_record (cfg : config) (w : world) (rd : result_dict) (p : point) :
  is_unique (map pt_id (points w)) = true ->
  compute cfg w = Ok rd -> In p (points w) ->
  exists v, record_of rd (pt_id p) = Some v
            /\ match_point cfg (sampled_record cfg (the_raster w) p) = Ok v.
Proof.
  intros Hu Hc Hp. rewrite compute_unique in Hc by assumption.
  apply is_unique_NoDup in Hu.
  apply (match_loop_record cfg (points w) _ rd Hu Hc p Hp).
Qed.

Lemma output_file_setup (w : world) (tr : list event) :
  output_file (setup_events w ++ tr) = output_file tr.
Proof.
  unfold output_file, setup_events. rewrite fold_left_app.
  destruct (outfolder_exists w); reflexivity.
Qed.

Lemma raster_io_setup (w : world) (tr : list event) :
  existsb is_raster_io (setup_events w ++ tr) = existsb is_raster_io tr.
Proof.
  unfold setup_events. rewrite existsb_app.
  destruct (outfolder_exists w); reflexivity.
Qed.

Lemma printed_setup (w : world) (tr : list event) :
  printed (setup_events w ++ tr) = printed tr.
Proof.
  unfold printed, setup_events. rewrite flat_map_app.
  destruct (outfolder_exists w); reflexivity.
Qed.

Lemma main_raise (cfg : config) (w : world) (e : exn) :
  is_unique (map pt_id (points w)) = true -> varname_ok cfg = true ->
  compute cfg w = Raise e ->
  main cfg w = (setup_events w ++ [OpenRaster; OpenRaster], Raise e).
Proof.
  intros Hu Hv Hc. unfold main. rewrite Hu, Hv, Hc. reflexivity.
Qed.

Lemma main_complete (cfg : config) (w : world) (rd : result_dict) (rows : list (list pyval)) :
  is_unique (map pt_id (points w)) = true -> varname_ok cfg = true ->
  compute cfg w = Ok rd -> result_list cfg rd = Ok rows ->
  main cfg w
  = (setup_events w
       ++ [OpenRaster; OpenRaster; OpenRaster; Plot;
           WriteCsv (outpath cfg w) rows; Print (msg_done cfg w rows)],
     Ok tt).
Proof.
  intros Hu Hv Hc Hr. unfold main. rewrite Hu, Hv, Hc, Hr. reflexivity.
Qed.

Lemma period_labels_set_other (k : string) (x : pyval) (v : record) :
  startswith "YM-" k = false ->
  period_labels (rec_set k x v) = period_labels v.
Proof.
  intro H. unfold period_labels, rec_set.
  rewrite (keys_set String.eqb str_eqb_eq).
  destruct (Dict.mem String.eqb k v); [reflexivity|].
  rewrite filter_app. cbn [filter]. rewrite H, app_nil_r. reflexivity.
Qed.

Lemma sampled_record_period_labels (cfg : config) (r : raster) (p : point) :
  columns_ok cfg = true ->
  period_labels (sampled_record cfg r p) = sampled_labels cfg r.
Proof.
  intro H. apply (period_labels_keys (Dict.keys (new_record cfg r p))).
  - apply sampled_record_keys. assumption.
  - intros k. apply new_record_keys. assumption.
Qed.

Lemma match_point_form (cfg : config) (v v' : record) :
  match_point cfg v = Ok v' -> exists x, v' = rec_set "MATCH_VALUE" x v.
Proof.
  unfold match_point. intro H.
  destruct (resolve_key cfg v) as [key|e]; cbn [bind] in H; [|discriminate].
  destruct (if rec_mem key v then rec_item key v else Ok PNone) as [x|e];
    cbn [bind] in H; [|discriminate].
  inversion H. eauto.
Qed.

Lemma match_loop_entries (cfg : config) (pts : list point) (f : point -> record) :
  forall rd, match_loop cfg (map (fun p => (pt_id p, f p)) pts) = Ok rd ->
  forall k v, In (k, v) rd ->
  exists p, In p pts /\ k = pt_id p /\ match_point cfg (f p) = Ok v.
Proof.
  unfold match_loop.
  induction pts as [|q pts IH]; simpl; intros rd H k v Hin.
  - inversion H; subst. destruct Hin.
  - destruct (match_point cfg (f q)) as [vq|e] eqn:Eq; cbn [bind] in H; [|discriminate].
    destruct (mapM _ (map _ pts)) as [rest|e] eqn:Er; cbn [bind] in H; [|discriminate].
    inversion H; subst. destruct Hin as [E|Hin].
    + inversion E; subst. exists q. auto.
    + destruct (IH rest eq_refl k v Hin) as [p [Hp [Hk Hm]]]. exists p. auto.
Qed.

Lemma record_of_sampled (cfg : config) (r : raster) (pts : list point) (p : point) :
  is_unique (map pt_id pts) = true -> In p pts ->
  record_of (sampled cfg r pts) (pt_id p) = Some (sampled_record cfg r p).
Proof.
  intros Hu Hp. apply is_unique_NoDup in Hu.
  apply (get_map_fresh obs_id_eqb obs_id_eqb_eq pt_id (sampled_record cfg r) p pts Hu Hp).
Qed.

Lemma sampled_labels_2018 (cfg : config) (r : raster) :
  startdate cfg = Np.of_year_month 2018 1 ->
  sampled_labels cfg r = months_from_january 2018 (count r).
Proof.
  intro H. unfold sampled_labels, months_from_january, band_range, band_label.
  rewrite <- seq_shift, map_map. apply map_ext. intro i.
  rewrite H. unfold Np.str_M, Np.year_of, Np.month_of, Np.of_year_month.
  f_equal; Z.to_euclidean_division_equations; lia.
Qed.

Lemma months_from_january_nth (y0 : Z) (n i : nat) :
  (i < n)%nat ->
  nth i (months_from_january y0 n) ""%string
  = Np.iso_year_month (y0 + Z.of_nat i / 12) (Z.of_nat i mod 12 + 1).
Proof.
  intro H. unfold months_from_january.
  rewrite (nth_indep _ ""%string
             (Np.iso_year_month (y0 + Z.of_nat 0 / 12) (Z.of_nat 0 mod 12 + 1)))
    by (rewrite length_map, length_seq; assumption).
  rewrite (map_nth (fun i => Np.iso_year_month (y0 + Z.of_nat i / 12)
                               (Z.of_nat i mod 12 + 1))).
  rewrite seq_nth by assumption. reflexivity.
Qed.

Lemma months_from_january_NoDup (y0 : Z) (n : nat) : NoDup (months_from_january y0 n).
Proof.
  unfold months_from_january. apply Injective_map_NoDup; [|apply seq_NoDup].
  intros i j E. apply LabelFacts.iso_year_month_inj in E as [Ey Em].
  Z.to_euclidean_division_equations. lia.
Qed.

Lemma label_month_iso (y m : Z) : label_month (Np.iso_year_month y m) = 12 * y + m.
Proof. unfold label_month. rewrite LabelFacts.year_month_iso. reflexivity. Qed.

Lemma result_list_rows (cfg : config) (rd : result_dict) (rows : list (list pyval)) :
  result_list cfg rd = Ok rows ->
  forall k v, In (k, v) rd -> In (pyval_of_id k :: Dict.values v) rows.
Proof.
  unfold result_list. intros H k v Hin.
  assert (G : In (pyval_of_id k :: Dict.values v)
                 (map (fun '(k, v) => pyval_of_id k :: Dict.values v) rd))
    by (apply (in_map (fun '(k, v) => pyval_of_id k :: Dict.values v) _ (k, v));
        assumption).
  destruct rd as [|[k0 first] rest]; [discriminate|].
  inversion H. right. exact G.
Qed.

End EraFacts.

(* ================================================================= *)
(** ** Facts about date resolution *)

Module DateFacts.
Import Era PyStr Strptime.

Lemma lstrip_no_space (s : string) : no_space s = true -> lstrip s = s.
Proof.
  destruct s as [|c s]; simpl; intro H; [reflexivity|].
  apply andb_true_iff in H as [Hc _]. apply negb_true_iff in Hc.
  rewrite Hc. reflexivity.
Qed.

Lemma rstrip_no_space (s : string) : no_space s = true -> rstrip s = s.
Proof.
  induction s as [|c s IH]; simpl; intro H; [reflexivity|].
  apply andb_true_iff in H as [Hc Hs]. apply negb_true_iff in Hc.
  rewrite (IH Hs), Hc. destruct s; reflexivity.
Qed.

Lemma strip_no_space (s : string) : no_space s = true -> strip s = s.
Proof.
  intro H. unfold strip. rewrite lstrip_no_space by assumption.
  apply rstrip_no_space. assumption.
Qed.

Lemma digit_cases (k : Z) :
  0 <= k <= 9 ->
  k = 0 \/ k = 1 \/ k = 2 \/ k = 3 \/ k = 4 \/ k = 5 \/ k = 6 \/ k = 7 \/ k = 8 \/ k = 9.
Proof. lia. Qed.

Ltac each_digit H :=
  apply digit_cases in H;
  repeat (destruct H as [H|H]); subst.

Lemma digit_char_facts (k : Z) :
  0 <= k <= 9 ->
  isdigit (digit_char k) = true
  /\ digit_value (digit_char k) = k
  /\ isspace (digit_char k) = false.
Proof. intro H. each_digit H; repeat split; reflexivity. Qed.

Lemma month_cases (m : Z) :
  1 <= m <= 12 ->
  m = 1 \/ m = 2 \/ m = 3 \/ m = 4 \/ m = 5 \/ m = 6
  \/ m = 7 \/ m = 8 \/ m = 9 \/ m = 10 \/ m = 11 \/ m = 12.
Proof. lia. Qed.

(** On a two-digit month the first alternative of [%m] is the month. *)
Lemma alts_m_two (m : Z) (rest : string) :
  1 <= m <= 12 ->
  exists tl, alts_m (two_digits m ++ rest) = (m, rest) :: tl.
Proof.
  intro H. apply month_cases in H.
  repeat (destruct H as [H|H]); subst; eexists; reflexivity.
Qed.

(** On a two-digit day the first alternative of [%d] is the day. *)
Lemma alts_d_two (d : Z) (rest : string) :
  1 <= d <= 31 ->
  exists tl, alts_d (two_digits d ++ rest) = (d, rest) :: tl.
Proof.
  intro H.
  assert (E : d = 10 * (d / 10) + d mod 10) by (apply Z.div_mod; lia).
  assert (H1 : 0 <= d / 10 <= 3) by (Z.to_euclidean_division_equations; lia).
  assert (H2 : 0 <= d mod 10 <= 9) by (Z.to_euclidean_division_equations; lia).
  assert (C : d / 10 = 0 \/ d / 10 = 1 \/ d / 10 = 2 \/ d / 10 = 3) by lia.
  unfold two_digits. each_digit H2;
    repeat (destruct C as [C|C]); rewrite C in *; rewrite H2 in *;
    rewrite E; try lia; eexists; reflexivity.
Qed.

Lemma match_Y_four (y : Z) (rest : string) :
  0 <= y <= 9999 -> match_Y (four_digits y ++ rest) = Some (y, rest).
Proof.
  intro H. unfold four_digits, two_digits, match_Y. cbn [append].
  assert (A : 0 <= y / 1000 <= 9) by (Z.to_euclidean_division_equations; lia).
  assert (B : 0 <= y / 100 mod 10 <= 9) by (Z.to_euclidean_division_equations; lia).
  assert (C : 0 <= y mod 100 / 10 <= 9) by (Z.to_euclidean_division_equations; lia).
  assert (D : 0 <= y mod 100 mod 10 <= 9) by (Z.to_euclidean_division_equations; lia).
  destruct (digit_char_facts _ A) as [-> [-> _]].
  destruct (digit_char_facts _ B) as [-> [-> _]].
  destruct (digit_char_facts _ C) as [-> [-> _]].
  destruct (digit_char_facts _ D) as [-> [-> _]].
  cbn [andb]. do 2 f_equal.
  Z.to_euclidean_division_equations. lia.
Qed.

Lemma days_in_month_max (y m : Z) : days_in_month y m <= 31.
Proof.
  unfold days_in_month.
  destruct (m =? 2); [destruct (is_leap y); lia|].
  destruct ((m =? 4) || (m =? 6) || (m =? 9) || (m =? 11)); lia.
Qed.

(** The text MM/DD/YYYY of a calendar date parses to that date. *)
Lemma strptime_mdy (m d y : Z) :
  1 <= m <= 12 -> 1 <= d <= days_in_month y m -> 1 <= y <= 9999 ->
  strptime (mdy_text m d y) = inl (y, m, d).
Proof.
  intros Hm Hd Hy. pose proof (days_in_month_max y m) as Hmax.
  unfold strptime, regex_match, mdy_text.
  destruct (alts_m_two m ("/" ++ two_digits d ++ "/" ++ four_digits y)) as [tm ->];
    [assumption|].
  cbn [first_success append match_slash]. cbn [Ascii.eqb Bool.eqb].
  destruct (alts_d_two d (String "/" (four_digits y))) as [td ->]; [lia|].
  cbn [first_success append match_slash]. cbn [Ascii.eqb Bool.eqb].
  rewrite <- (StrFacts.append_nil_r (four_digits y)).
  rewrite match_Y_four by lia.
  replace (1 <=? y) with true by (symmetry; apply Z.leb_le; lia).
  replace (d <=? days_in_month y m) with true by (symmetry; apply Z.leb_le; lia).
  reflexivity.
Qed.

Lemma mdy_no_space (m d y : Z) :
  1 <= m <= 12 -> 1 <= d <= 31 -> 0 <= y <= 9999 -> no_space (mdy_text m d y) = true.
Proof.
  intros Hm Hd Hy. unfold mdy_text, two_digits, four_digits, two_digits.
  cbn [append no_space].
  assert (forall k, 0 <= k <= 9 -> negb (isspace (digit_char k)) = true) as G.
  { intros k Hk. destruct (digit_char_facts k Hk) as [_ [_ ->]]. reflexivity. }
  rewrite !G; try reflexivity; Z.to_euclidean_division_equations; lia.
Qed.

(** Date resolution of a text when [standard_date] is false. *)
Lemma date_key_text (cfg : config) (s : string) :
  standard_date cfg = false ->
  date_key cfg (PStr s)
  = match strptime (strip s) with
    | inl (y, m, _) => Ok (ym_key (Np.iso_year_month y m))
    | inr e => Raise (ValueError e)
    end.
Proof.
  intro H. unfold date_key. rewrite H. cbn [negb].
  destruct (strptime (strip s)) as [[[y m] d]|e]; reflexivity.
Qed.

(** Every key the resolution returns is a period key. *)
Lemma date_key_shape (cfg : config) (raw : pyval) (key : string) :
  date_key cfg raw = Ok key -> exists label, key = ym_key label.
Proof.
  unfold date_key. intro H.
  destruct (if negb (standard_date cfg) then _ else _) as [numdate|e];
    cbn [bind] in H; [|discriminate].
  destruct (datetime_as_string_M numdate) as [s|e]; cbn [bind] in H; [|discriminate].
  inversion H. eauto.
Qed.

End DateFacts.

(* ================================================================= *)
(** ** The properties of the script *)

Import Era PyStr EraFacts DateFacts.
Local Open Scope list_scope.

(** C1.  The conversion subtracts 272.15 from a temperature, where Kelvin to
    Celsius is 273.15: on every kind but ["temp"] the function agrees with
    the reference conversion, and on ["temp"] it is one degree above it, so
    that 273.15 K converts to 1.0 and not to 0.0.  Precipitation is as the
    reference says: 0.001 m converts to 1.0 mm. *)
Theorem convert_units_kelvin_offset :
  (forall kind raw,
     Units.convert_units kind raw
     = if String.eqb kind "temp" then (raw - 272.15)%float
       else Units.convert_reference kind raw)
  /\ Units.convert_units "temp" 273.15%float = 1%float
  /\ Units.convert_reference "temp" 273.15%float = 0%float
  /\ Units.convert_units "temp" 273.15%float
     <> Units.convert_reference "temp" 273.15%float
  /\ Units.convert_units "precip" 0.001%float = 1%float.
Proof.
  repeat split.
  - intros kind raw. unfold Units.convert_units, Units.convert_reference.
    destruct (String.eqb kind "temp"); reflexivity.
  - intro H. apply (f_equal (fun x => PrimFloat.eqb x 0)) in H.
    vm_compute in H. discriminate.
Qed.

(** C2.  With [standard_date] true the raw date goes to numpy unparsed, so a
    text date, well formed or not, is never resolved: the resolution raises
    [TypeError] and the run ends there, before any table is written.  Only a
    value that is already a numpy datetime resolves to its year and month,
    which is what the other branch builds before the same call. *)
Theorem standard_date_text_raises :
  (forall vn onum onm od sd s,
     date_key {| varname := vn; obnum := onum; obname := onm; obdate := od;
                 startdate := sd; standard_date := true |} (PStr s)
     = Raise TypeError)
  /\ main Sample.standard_config (Sample.field [Sample.iso_text])
     = ([ReadPointFile; OpenRaster; OpenRaster], Raise TypeError)
  /\ date_key Sample.standard_config (PDatetime64 2019 3 15) = Ok "YM-2019-03"
  /\ date_key default_config (PStr "03/15/2019") = Ok "YM-2019-03".
Proof.
  split; [reflexivity|]. split; [vm_compute; reflexivity|].
  split; vm_compute; reflexivity.
Qed.

(** C3, as stated, fails on the exit status: a point file with a repeated
    unique ID ends the run through [sys.exit()] with no argument, which is
    exit status 0. *)
Lemma duplicate_ids_exit_status_zero :
  is_unique (map pt_id (points (Sample.field [Sample.inside; Sample.twin]))) = false
  /\ ~ (exit_status (snd (main default_config
                            (Sample.field [Sample.inside; Sample.twin]))) <> 0).
Proof. split; [reflexivity|]. intro H. apply H. vm_compute. reflexivity. Qed.

(** C3, amended.  When the unique-ID column holds a duplicate, or the
    variable kind is neither ["temp"] nor ["precip"], the run prints the
    message of the failed check and ends through [sys.exit()]: the raster is
    never opened, no table is written, and the exit status is 0. *)
Theorem precondition_failure_exits (cfg : config) (w : world) :
  is_unique (map pt_id (points w)) = false \/ varname_ok cfg = false ->
  snd (main cfg w) = Raise SystemExit
  /\ exit_status (snd (main cfg w)) = 0
  /\ printed (fst (main cfg w))
     = [if is_unique (map pt_id (points w)) then msg_varname else msg_duplicate]
  /\ existsb is_raster_io (fst (main cfg w)) = false
  /\ output_file (fst (main cfg w)) = None.
Proof.
  intro H. unfold main.
  destruct (is_unique (map pt_id (points w))) eqn:Hu; cbn [negb].
  - destruct H as [H|H]; [discriminate|]. rewrite H. cbn [negb fst snd].
    rewrite printed_setup, raster_io_setup, output_file_setup.
    repeat split; reflexivity.
  - cbn [fst snd]. rewrite printed_setup, raster_io_setup, output_file_setup.
    repeat split; reflexivity.
Qed.

Lemma precondition_failure_exits_witness :
  (printed (fst (main default_config (Sample.field [Sample.inside; Sample.twin])))
   = [msg_duplicate]
   /\ exit_status (snd (main default_config
                          (Sample.field [Sample.inside; Sample.twin]))) = 0)
  /\ (printed (fst (main Sample.wind_config (Sample.field [Sample.inside])))
      = [msg_varname]
      /\ output_file (fst (main Sample.wind_config (Sample.field [Sample.inside])))
         = None).
Proof.
  split.
  - destruct (precondition_failure_exits default_config
                (Sample.field [Sample.inside; Sample.twin]))
      as [_ [H1 [H2 _]]]; [left; reflexivity|].
    split; [exact H2 | exact H1].
  - destruct (precondition_failure_exits Sample.wind_config
                (Sample.field [Sample.inside]))
      as [_ [_ [H2 [_ H4]]]]; [right; reflexivity|].
    split; [exact H2 | exact H4].
Defined.

(** C10.  With [standard_date] false the raw date is stripped before it is
    parsed: blanks before and after a text change nothing of its
    resolution, neither the year-month key of a text that parses nor the
    error of one that does not. *)
Theorem padded_date_same_key (cfg : config) (l s r : string) :
  standard_date cfg = false ->
  all_space l = true -> all_space r = true ->
  date_key cfg (PStr (l ++ s ++ r)%string) = date_key cfg (PStr s).
Proof.
  intros H Hl Hr. rewrite !date_key_text by assumption.
  rewrite StrFacts.strip_padded by assumption. reflexivity.
Qed.

Lemma padded_date_same_key_witness :
  date_key default_config (PStr "  03/15/2019 ") = Ok "YM-2019-03"
  /\ date_key default_config (PStr "03/15/2019") = Ok "YM-2019-03".
Proof.
  assert (E : date_key default_config (PStr "03/15/2019") = Ok "YM-2019-03")
    by (vm_compute; reflexivity).
  split; [|exact E].
  rewrite <- E.
  apply (padded_date_same_key default_config "  " "03/15/2019" " ");
    reflexivity.
Defined.

(** C7.  From the start period 2018-01, a raster of [N] bands gives every
    point of the file a record with the period labels 2018-01, 2018-02, ...
    in band order: [N] labels, one per band, the label of a band holding the
    value sampled at that band, each label one calendar month after the one
    before, none twice.  The sampling pass always completes with one record
    per point, and the matching pass leaves the labels as they are. *)
Theorem period_labels_from_2018_01 (cfg : config) (w : world) :
  startdate cfg = Np.of_year_month 2018 1 ->
  columns_ok cfg = true ->
  is_unique (map pt_id (points w)) = true ->
  exists rd,
    band_loop cfg (the_raster w) (band_range (the_raster w)) (startdate cfg)
      (index_points cfg (the_raster w) (points w))
    = Ok (rd, startdate cfg + Z.of_nat (count (the_raster w)))
    /\ map fst rd = map pt_id (points w)
    /\ (forall p, In p (points w) ->
          exists v, record_of rd (pt_id p) = Some v
          /\ period_labels v = months_from_january 2018 (count (the_raster w))
          /\ forall i, (i < count (the_raster w))%nat ->
               rec_get (ym_key (nth i (months_from_january 2018 (count (the_raster w)))
                                   ""%string)) v
               = Some (cell_value cfg (the_raster w) (S i)
                         (fst (cell_address (the_raster w) p))
                         (snd (cell_address (the_raster w) p))))
    /\ (forall k v, In (k, v) rd ->
          period_labels v = months_from_january 2018 (count (the_raster w)))
    /\ (forall rd' p, compute cfg w = Ok rd' -> In p (points w) ->
          exists v, record_of rd' (pt_id p) = Some v
          /\ period_labels v = months_from_january 2018 (count (the_raster w)))
    /\ (forall rd' k v, compute cfg w = Ok rd' -> In (k, v) rd' ->
          period_labels v = months_from_january 2018 (count (the_raster w)))
    /\ List.length (months_from_january 2018 (count (the_raster w)))
       = count (the_raster w)
    /\ NoDup (months_from_january 2018 (count (the_raster w)))
    /\ (forall i, (S i < count (the_raster w))%nat ->
          label_month (nth (S i) (months_from_january 2018 (count (the_raster w))) ""%string)
          = label_month (nth i (months_from_january 2018 (count (the_raster w))) ""%string) + 1)
    /\ (forall i, (i < count (the_raster w))%nat ->
          nth i (months_from_january 2018 (count (the_raster w))) ""%string
          = band_label cfg (S i)).
Proof.
  intros Hs Hc Hu. exists (sampled cfg (the_raster w) (points w)).
  assert (Hnth : forall i, (i < count (the_raster w))%nat ->
            nth i (months_from_january 2018 (count (the_raster w))) ""%string
            = band_label cfg (S i)).
  { intros i Hi. rewrite months_from_january_nth by assumption.
    unfold band_label. rewrite Hs.
    unfold Np.str_M, Np.year_of, Np.month_of, Np.of_year_month.
    f_equal; Z.to_euclidean_division_equations; lia. }
  split; [apply band_loop_sampled; assumption|].
  split; [unfold sampled; rewrite map_map; reflexivity|].
  split; [|split; [|split; [|split; [|split; [|split; [|split]]]]]].
  - intros p Hp. exists (sampled_record cfg (the_raster w) p).
    split; [apply record_of_sampled; assumption|]. split.
    + rewrite sampled_record_period_labels by assumption.
      apply sampled_labels_2018. assumption.
    + intros i Hi. rewrite Hnth by assumption.
      apply sampled_record_label. lia.
  - intros k v Hin. unfold sampled in Hin.
    apply in_map_iff in Hin as [p [E Hp]]. inversion E; subst.
    rewrite sampled_record_period_labels by assumption.
    apply sampled_labels_2018. assumption.
  - intros rd' p Hcomp Hp.
    destruct (compute_record cfg w rd' p Hu Hcomp Hp) as [v [Hr Hm]].
    exists v. split; [assumption|].
    apply match_point_form in Hm as [x ->].
    rewrite period_labels_set_other by reflexivity.
    rewrite sampled_record_period_labels by assumption.
    apply sampled_labels_2018. assumption.
  - intros rd' k v Hcomp Hin. rewrite compute_unique in Hcomp by assumption.
    destruct (match_loop_entries cfg _ _ rd' Hcomp k v Hin) as [p [Hp [_ Hm]]].
    apply match_point_form in Hm as [x ->].
    rewrite period_labels_set_other by reflexivity.
    rewrite sampled_record_period_labels by assumption.
    apply sampled_labels_2018. assumption.
  - unfold months_from_january. rewrite length_map, length_seq. reflexivity.
  - apply months_from_january_NoDup.
  - intros i Hi. rewrite !months_from_january_nth by lia.
    rewrite !label_month_iso. Z.to_euclidean_division_equations. lia.
  - exact Hnth.
Qed.

Lemma period_labels_from_2018_01_witness :
  exists rd,
    band_loop default_config Sample.grib (band_range Sample.grib)
      (Np.of_year_month 2018 1)
      (index_points default_config Sample.grib [Sample.inside; Sample.outside])
    = Ok (rd, Np.of_year_month 2020 1)
    /\ map fst rd = [IdInt 1; IdInt 3]
    /\ exists v, record_of rd (IdInt 1) = Some v
       /\ period_labels v
          = ["2018-01"; "2018-02"; "2018-03"; "2018-04"; "2018-05"; "2018-06";
             "2018-07"; "2018-08"; "2018-09"; "2018-10"; "2018-11"; "2018-12";
             "2019-01"; "2019-02"; "2019-03"; "2019-04"; "2019-05"; "2019-06";
             "2019-07"; "2019-08"; "2019-09"; "2019-10"; "2019-11"; "2019-12"]%string
       /\ rec_get "YM-2019-02" v = Some (PFloat 11.85%float).
Proof.
  assert (Hi : (13 < 24)%nat) by lia.
  destruct (period_labels_from_2018_01 default_config
              (Sample.field [Sample.inside; Sample.outside]))
    as [rd [H1 [H2 [H3 _]]]]; [reflexivity | reflexivity | reflexivity |].
  exists rd. split; [exact H1|]. split; [exact H2|].
  destruct (H3 Sample.inside (or_introl eq_refl)) as [v [Hv [Hl Hx]]].
  exists v. split; [exact Hv|]. split; [exact Hl|]. exact (Hx 13%nat Hi).
Defined.



(** C4.  A point whose cell address is outside the grid has [None] under
    every period label once the bands are sampled, whatever its date; and
    whenever its date resolves, to a sampled period or not, its
    [MATCH_VALUE] is [None] too.  So it is in every result the run
    computes. *)
Theorem out_of_grid_point_all_null (cfg : config) (w : world) (p : point) :
  is_unique (map pt_id (points w)) = true ->
  columns_ok cfg = true ->
  In p (points w) ->
  point_out_of_grid (the_raster w) p = true ->
  (exists rd,
     band_loop cfg (the_raster w) (band_range (the_raster w)) (startdate cfg)
       (index_points cfg (the_raster w) (points w))
     = Ok (rd, startdate cfg + Z.of_nat (count (the_raster w)))
     /\ exists v, record_of rd (pt_id p) = Some v
        /\ period_labels v = sampled_labels cfg (the_raster w)
        /\ forall label, In label (period_labels v) ->
                         rec_get (ym_key label) v = Some PNone)
  /\ (forall key, date_key cfg (pt_date p) = Ok key ->
        match_point cfg (sampled_record cfg (the_raster w) p)
        = Ok (rec_set "MATCH_VALUE" PNone (sampled_record cfg (the_raster w) p)))
  /\ (forall rd', compute cfg w = Ok rd' ->
        exists v, record_of rd' (pt_id p) = Some v
        /\ period_labels v = sampled_labels cfg (the_raster w)
        /\ (forall label, In label (period_labels v) ->
                          rec_get (ym_key label) v = Some PNone)
        /\ rec_get "MATCH_VALUE" v = Some PNone).
Proof.
  intros Hu Hc Hp Hg.
  assert (Hnull : forall label, In label (sampled_labels cfg (the_raster w)) ->
            rec_get (ym_key label) (sampled_record cfg (the_raster w) p) = Some PNone).
  { intros label Hl. unfold sampled_labels, band_range in Hl.
    apply in_map_iff in Hl as [b [E Hb]]. apply in_seq in Hb. subst label.
    rewrite sampled_record_label by lia. unfold cell_value.
    unfold point_out_of_grid in Hg. rewrite Hg. reflexivity. }
  assert (Hmatch : forall key, date_key cfg (pt_date p) = Ok key ->
            match_point cfg (sampled_record cfg (the_raster w) p)
            = Ok (rec_set "MATCH_VALUE" PNone (sampled_record cfg (the_raster w) p))).
  { intros key Hk.
    rewrite (match_point_ok cfg _ (pt_date p) key)
      by (try apply sampled_record_date; assumption).
    do 2 f_equal. unfold lookup_or_none.
    destruct (date_key_shape _ _ _ Hk) as [label ->].
    destruct (in_dec string_dec label (sampled_labels cfg (the_raster w))) as [Hin|Hout].
    - rewrite Hnull by assumption. reflexivity.
    - rewrite sampled_record_absent by assumption. reflexivity. }
  split; [|split].
  - exists (sampled cfg (the_raster w) (points w)).
    split; [apply band_loop_sampled; assumption|].
    exists (sampled_record cfg (the_raster w) p).
    split; [apply record_of_sampled; assumption|].
    rewrite sampled_record_period_labels by assumption. auto.
  - exact Hmatch.
  - intros rd' Hcomp.
    destruct (compute_record cfg w rd' p Hu Hcomp Hp) as [v [Hr Hm]].
    exists v. split; [assumption|].
    destruct (date_key cfg (pt_date p)) as [key|e] eqn:Ek.
    + rewrite (Hmatch key eq_refl) in Hm. inversion Hm; subst v.
      rewrite period_labels_set_other by reflexivity.
      rewrite sampled_record_period_labels by assumption.
      split; [reflexivity|]. split; [|apply rec_get_set_same].
      intros label Hl. rewrite rec_get_set_other by (apply not_eq_sym, fixed_not_ym; auto).
      auto.
    + rewrite (match_point_raise cfg _ (pt_date p) e) in Hm
        by (try apply sampled_record_date; assumption).
      discriminate.
Qed.

Lemma out_of_grid_point_all_null_witness :
  exists rd,
    compute default_config (Sample.field [Sample.inside; Sample.late; Sample.outside])
    = Ok rd
    /\ exists v, record_of rd (IdInt 3) = Some v
       /\ (forall label, In label (period_labels v) ->
                         rec_get (ym_key label) v = Some PNone)
       /\ rec_get "MATCH_VALUE" v = Some PNone.
Proof.
  destruct (compute default_config
              (Sample.field [Sample.inside; Sample.late; Sample.outside]))
    as [rd|e] eqn:E; [|vm_compute in E; discriminate].
  exists rd. split; [reflexivity|].
  destruct (out_of_grid_point_all_null default_config
              (Sample.field [Sample.inside; Sample.late; Sample.outside])
              Sample.outside)
    as [_ [_ H]]; try reflexivity.
  - right. right. left. reflexivity.
  - destruct (H rd E) as [v [H1 [_ [H3 H4]]]]. exists v. auto.
Defined.

(** C6.  When every date of the point file resolves, the run completes and
    writes its table; a point whose own year-month is not one of the
    sampled periods has [None] as [MATCH_VALUE] while every sampled period
    keeps its value in the point's record, and the point's row is in the
    table. *)
Theorem out_of_range_date_null_match (cfg : config) (w : world) (p : point)
    (label : string) :
  is_unique (map pt_id (points w)) = true ->
  varname_ok cfg = true ->
  columns_ok cfg = true ->
  (forall q, In q (points w) -> exists key, date_key cfg (pt_date q) = Ok key) ->
  In p (points w) ->
  date_key cfg (pt_date p) = Ok (ym_key label) ->
  ~ In label (sampled_labels cfg (the_raster w)) ->
  exists rd rows,
    compute cfg w = Ok rd
    /\ main cfg w
       = (setup_events w
            ++ [OpenRaster; OpenRaster; OpenRaster; Plot;
                WriteCsv (outpath cfg w) rows; Print (msg_done cfg w rows)],
          Ok tt)
    /\ exit_status (snd (main cfg w)) = 0
    /\ exists v, record_of rd (pt_id p) = Some v
       /\ rec_get "MATCH_VALUE" v = Some PNone
       /\ period_labels v = sampled_labels cfg (the_raster w)
       /\ (forall b, (1 <= b <= count (the_raster w))%nat ->
             rec_get (ym_key (band_label cfg b)) v
             = Some (cell_value cfg (the_raster w) b
                       (fst (cell_address (the_raster w) p))
                       (snd (cell_address (the_raster w) p))))
       /\ In (pyval_of_id (pt_id p) :: Dict.values v) rows.
Proof.
  intros Hu Hv Hc Hall Hp Hkey Hout.
  set (r := the_raster w) in *.
  set (g := fun q => rec_set "MATCH_VALUE"
                       (match date_key cfg (pt_date q) with
                        | Ok key => lookup_or_none key (sampled_record cfg r q)
                        | Raise _ => PNone
                        end)
                       (sampled_record cfg r q)).
  assert (Hg : forall q, In q (points w) ->
                         match_point cfg (sampled_record cfg r q) = Ok (g q)).
  { intros q Hq. destruct (Hall q Hq) as [key Hk]. unfold g. rewrite Hk.
    apply (match_point_ok cfg _ (pt_date q) key);
      [apply sampled_record_date|]; assumption. }
  assert (Hcomp : compute cfg w = Ok (map (fun q => (pt_id q, g q)) (points w))).
  { rewrite compute_unique by assumption. apply match_loop_map. exact Hg. }
  assert (Hgp : g p = rec_set "MATCH_VALUE" PNone (sampled_record cfg r p)).
  { unfold g. rewrite Hkey. unfold lookup_or_none.
    rewrite sampled_record_absent by assumption. reflexivity. }
  destruct (result_list cfg (map (fun q => (pt_id q, g q)) (points w)))
    as [rows|e] eqn:Er.
  2:{ unfold result_list in Er. destruct (points w); [destruct Hp | discriminate]. }
  exists (map (fun q => (pt_id q, g q)) (points w)), rows.
  split; [exact Hcomp|].
  rewrite (main_complete cfg w _ rows Hu Hv Hcomp Er).
  split; [reflexivity|]. split; [reflexivity|].
  exists (g p). split; [|split; [|split; [|split]]].
  - apply is_unique_NoDup in Hu.
    apply (DictFacts.get_map_fresh obs_id_eqb DictFacts.obs_id_eqb_eq pt_id g p _ Hu Hp).
  - rewrite Hgp. apply rec_get_set_same.
  - rewrite Hgp, period_labels_set_other by reflexivity.
    apply sampled_record_period_labels. assumption.
  - intros b Hb. rewrite Hgp.
    rewrite rec_get_set_other by (apply not_eq_sym, fixed_not_ym; auto).
    apply sampled_record_label. assumption.
  - apply (result_list_rows cfg _ rows Er).
    apply (in_map (fun q => (pt_id q, g q))). assumption.
Qed.

Lemma out_of_range_date_null_match_witness :
  exists rd rows,
    compute default_config (Sample.field [Sample.inside; Sample.late; Sample.outside])
    = Ok rd
    /\ output_file (fst (main default_config
                           (Sample.field [Sample.inside; Sample.late; Sample.outside])))
       = Some rows
    /\ exists v, record_of rd (IdInt 2) = Some v
       /\ rec_get "MATCH_VALUE" v = Some PNone
       /\ rec_get "YM-2019-12" v = Some (PFloat 21.85%float)
       /\ In (PInt 2 :: Dict.values v) rows.
Proof.
  destruct (out_of_range_date_null_match default_config
              (Sample.field [Sample.inside; Sample.late; Sample.outside])
              Sample.late "2030-01")
    as [rd [rows [H1 [H2 [_ [v [H3 [H4 [_ [H5 H6]]]]]]]]]]; try reflexivity.
  - intros q [<-|[<-|[<-|[]]]]; eexists; vm_compute; reflexivity.
  - right. left. reflexivity.
  - vm_compute. intuition discriminate.
  - exists rd, rows. split; [exact H1|]. split; [rewrite H2; reflexivity|].
    exists v. repeat split; try assumption.
    assert (Hb : (1 <= 24 <= 24)%nat) by lia.
    exact (H5 24%nat Hb).
Defined.

(** C5.  With [standard_date] false the raw date is read as month, day,
    year with slashes: the text MM/DD/YYYY of a calendar date resolves to
    the key of its year and month (03/15/2019 to 2019-03), and when that
    month is the period of a sampled band, [MATCH_VALUE] is the value
    stored for that band in the point's record. *)
Theorem nonstandard_date_month_day_year (cfg : config) (w : world) (p : point)
    (m d y : Z) :
  standard_date cfg = false ->
  1 <= m <= 12 -> 1 <= d <= Strptime.days_in_month y m -> 1 <= y <= 9999 ->
  is_unique (map pt_id (points w)) = true ->
  columns_ok cfg = true ->
  In p (points w) ->
  pt_date p = PStr (mdy_text m d y) ->
  date_key cfg (pt_date p) = Ok (ym_key (Np.iso_year_month y m))
  /\ (forall b, (1 <= b <= count (the_raster w))%nat ->
        band_label cfg b = Np.iso_year_month y m ->
        rec_get (ym_key (Np.iso_year_month y m)) (sampled_record cfg (the_raster w) p)
        = Some (cell_value cfg (the_raster w) b
                  (fst (cell_address (the_raster w) p))
                  (snd (cell_address (the_raster w) p)))
        /\ match_point cfg (sampled_record cfg (the_raster w) p)
           = Ok (rec_set "MATCH_VALUE"
                   (cell_value cfg (the_raster w) b
                      (fst (cell_address (the_raster w) p))
                      (snd (cell_address (the_raster w) p)))
                   (sampled_record cfg (the_raster w) p))
        /\ forall rd, compute cfg w = Ok rd ->
             exists v, record_of rd (pt_id p) = Some v
             /\ rec_get (ym_key (Np.iso_year_month y m)) v
                = Some (cell_value cfg (the_raster w) b
                          (fst (cell_address (the_raster w) p))
                          (snd (cell_address (the_raster w) p)))
             /\ rec_get "MATCH_VALUE" v
                = Some (cell_value cfg (the_raster w) b
                          (fst (cell_address (the_raster w) p))
                          (snd (cell_address (the_raster w) p)))).
Proof.
  intros Hs Hm Hd Hy Hu Hc Hp Hdate.
  assert (Hkey : date_key cfg (pt_date p) = Ok (ym_key (Np.iso_year_month y m))).
  { rewrite Hdate, date_key_text by assumption.
    pose proof (days_in_month_max y m).
    rewrite strip_no_space by (apply mdy_no_space; lia).
    rewrite strptime_mdy by assumption. reflexivity. }
  split; [exact Hkey|].
  intros b Hb Hl.
  assert (Hx : rec_get (ym_key (Np.iso_year_month y m)) (sampled_record cfg (the_raster w) p)
               = Some (cell_value cfg (the_raster w) b
                         (fst (cell_address (the_raster w) p))
                         (snd (cell_address (the_raster w) p)))).
  { rewrite <- Hl. apply sampled_record_label. assumption. }
  assert (Hmp : match_point cfg (sampled_record cfg (the_raster w) p)
                = Ok (rec_set "MATCH_VALUE"
                        (cell_value cfg (the_raster w) b
                           (fst (cell_address (the_raster w) p))
                           (snd (cell_address (the_raster w) p)))
                        (sampled_record cfg (the_raster w) p))).
  { rewrite (match_point_ok cfg _ (pt_date p) _ (sampled_record_date cfg _ p Hc) Hkey).
    unfold lookup_or_none. rewrite Hx. reflexivity. }
  split; [exact Hx|]. split; [exact Hmp|].
  intros rd Hcomp.
  destruct (compute_record cfg w rd p Hu Hcomp Hp) as [v [Hr Hv]].
  exists v. split; [assumption|].
  rewrite Hmp in Hv. inversion Hv; subst v. split.
  - rewrite rec_get_set_other by (apply not_eq_sym, fixed_not_ym; auto). exact Hx.
  - apply rec_get_set_same.
Qed.

Lemma nonstandard_date_month_day_year_witness :
  date_key default_config (PStr "03/15/2019") = Ok "YM-2019-03"
  /\ exists rd,
       compute default_config (Sample.field [Sample.inside; Sample.late; Sample.outside])
       = Ok rd
       /\ exists v, record_of rd (IdInt 1) = Some v
          /\ rec_get "YM-2019-03" v = Some (PFloat 12.85%float)
          /\ rec_get "MATCH_VALUE" v = Some (PFloat 12.85%float).
Proof.
  assert (Hb : (1 <= 15 <= 24)%nat) by lia.
  destruct (nonstandard_date_month_day_year default_config
              (Sample.field [Sample.inside; Sample.late; Sample.outside])
              Sample.inside 3 15 2019)
    as [H1 H2]; try reflexivity; try lia.
  - vm_compute. intuition discriminate.
  - left. reflexivity.
  - split; [exact H1|].
    destruct (compute default_config
                (Sample.field [Sample.inside; Sample.late; Sample.outside]))
      as [rd|e] eqn:E; [|vm_compute in E; discriminate].
    exists rd. split; [reflexivity|].
    destruct (H2 15%nat Hb eq_refl) as [_ [_ H3]].
    exact (H3 rd eq_refl).
Defined.

(** C9, as stated, fails: a date that does not match the format stops the
    whole run.  The error carries the text and the format but no point ID,
    and no row is written, neither of the point with the bad date nor of the
    point before it. *)
Lemma malformed_date_aborts_run :
  main default_config (Sample.field [Sample.inside; Sample.iso_text])
  = ([ReadPointFile; OpenRaster; OpenRaster],
     Raise (ValueError (Strptime.NoMatch "2019-03-15" "%m/%d/%Y")))
  /\ ~ row_in_output default_config
         (Sample.field [Sample.inside; Sample.iso_text]) Sample.iso_text
  /\ ~ row_in_output default_config
         (Sample.field [Sample.inside; Sample.iso_text]) Sample.inside.
Proof.
  assert (E : output_file (fst (main default_config
                (Sample.field [Sample.inside; Sample.iso_text]))) = None)
    by (vm_compute; reflexivity).
  split; [vm_compute; reflexivity|].
  split; intros [rows [row [H _]]]; rewrite E in H; discriminate.
Qed.

(** C9, amended.  With [standard_date] false, the first point whose
    stripped date text is refused by the parser ends the run with the
    parser's [ValueError], which depends on the stripped text alone and
    never on the point's ID: a text that does not match the pattern gives
    the error that names the stripped text and the format, a date followed
    by more text the error that names only what follows, and a date that
    does not exist the out-of-range error, which names neither.  The
    exception is not caught, the exit status is 1, and no table is written,
    for any point. *)
Theorem unparsed_date_aborts_run (cfg : config) (w : world) (l1 l2 : list point)
    (p : point) (s : string) (e : Strptime.error) :
  is_unique (map pt_id (points w)) = true ->
  varname_ok cfg = true ->
  columns_ok cfg = true ->
  standard_date cfg = false ->
  points w = l1 ++ p :: l2 ->
  (forall q, In q l1 -> exists key, date_key cfg (pt_date q) = Ok key) ->
  pt_date p = PStr s ->
  Strptime.strptime (strip s) = inr e ->
  main cfg w = (setup_events w ++ [OpenRaster; OpenRaster], Raise (ValueError e))
  /\ exit_status (snd (main cfg w)) = 1
  /\ output_file (fst (main cfg w)) = None
  /\ (forall q, ~ row_in_output cfg w q)
  /\ e = match Strptime.regex_match (strip s) with
         | None => Strptime.NoMatch (strip s) Strptime.format
         | Some (m, d, y, EmptyString) => Strptime.OutOfRange y m d
         | Some (_, _, _, rest) => Strptime.UnconvertedRemains rest
         end.
Proof.
  intros Hu Hv Hc Hs Hpts Hl1 Hdate He.
  assert (Hraise : compute cfg w = Raise (ValueError e)).
  { rewrite compute_unique by assumption. unfold sampled. rewrite Hpts.
    apply match_loop_raise.
    - intros q Hq. destruct (Hl1 q Hq) as [key Hk]. eexists.
      apply (match_point_ok cfg _ (pt_date q) key);
        [apply sampled_record_date|]; assumption.
    - apply (match_point_raise cfg _ (pt_date p));
        [apply sampled_record_date; assumption|].
      rewrite Hdate, date_key_text, He by assumption. reflexivity. }
  assert (Hmain := main_raise cfg w _ Hu Hv Hraise).
  assert (Hout : output_file (fst (main cfg w)) = None).
  { rewrite Hmain. cbn [fst]. rewrite output_file_setup. reflexivity. }
  split; [exact Hmain|]. split; [rewrite Hmain; reflexivity|].
  split; [exact Hout|]. split.
  - intros q [rows [row [H _]]]. rewrite Hout in H. discriminate.
  - unfold Strptime.strptime in He.
    destruct (Strptime.regex_match (strip s)) as [[[[m d] y] rest]|].
    + destruct rest; [|congruence].
      destruct ((1 <=? y) && (d <=? Strptime.days_in_month y m)); congruence.
    + congruence.
Qed.

Lemma unparsed_date_aborts_run_witness :
  main default_config (Sample.field [Sample.inside; Sample.iso_text])
  = ([ReadPointFile; OpenRaster; OpenRaster],
     Raise (ValueError (Strptime.NoMatch "2019-03-15" "%m/%d/%Y")))
  /\ exit_status (snd (main default_config
                         (Sample.field [Sample.inside; Sample.iso_text]))) = 1.
Proof.
  destruct (unparsed_date_aborts_run default_config
              (Sample.field [Sample.inside; Sample.iso_text])
              [Sample.inside] [] Sample.iso_text "2019-03-15"
              (Strptime.NoMatch "2019-03-15" "%m/%d/%Y"))
    as [H1 [H2 _]]; try reflexivity.
  - intros q [<-|[]]. eexists. vm_compute. reflexivity.
  - split; [exact H1 | exact H2].
Defined.

(* ================================================================= *)
(** ** The run as a whole *)

Module RunFacts.
Import Table.

Lemma match_point_final (cfg : config) (r : raster) (p : point) :
  columns_ok cfg = true -> resolves cfg p ->
  match_point cfg (sampled_record cfg r p) = Ok (final_record cfg r p).
Proof.
  intros Hc [key Hk]. unfold final_record, match_value. rewrite Hk.
  apply (match_point_ok cfg _ (pt_date p) key);
    [apply sampled_record_date|]; assumption.
Qed.

Lemma match_point_unresolved (cfg : config) (r : raster) (p : point) (e : exn) :
  columns_ok cfg = true -> date_key cfg (pt_date p) = Raise e ->
  match_point cfg (sampled_record cfg r p) = Raise e.
Proof.
  intros Hc He. apply (match_point_raise cfg _ (pt_date p));
    [apply sampled_record_date|]; assumption.
Qed.

Lemma compute_all (cfg : config) (w : world) :
  is_unique (map pt_id (points w)) = true ->
  columns_ok cfg = true ->
  (forall p, In p (points w) -> resolves cfg p) ->
  compute cfg w
  = Ok (map (fun p => (pt_id p, final_record cfg (the_raster w) p)) (points w)).
Proof.
  intros Hu Hc Hall. rewrite compute_unique by assumption.
  apply match_loop_map. intros p Hp. apply match_point_final; auto.
Qed.

Lemma compute_first_raise (cfg : config) (w : world) (l1 l2 : list point)
    (p : point) (e : exn) :
  is_unique (map pt_id (points w)) = true ->
  columns_ok cfg = true ->
  points w = l1 ++ p :: l2 ->
  (forall q, In q l1 -> resolves cfg q) ->
  date_key cfg (pt_date p) = Raise e ->
  compute cfg w = Raise e.
Proof.
  intros Hu Hc Hpts Hl1 He. rewrite compute_unique by assumption.
  unfold sampled. rewrite Hpts. apply match_loop_raise.
  - intros q Hq. eexists. apply match_point_final; auto.
  - apply match_point_unresolved; assumption.
Qed.

(** Either every date resolves or there is a first one that does not. *)
Lemma first_failure (cfg : config) (pts : list point) :
  (forall p, In p pts -> resolves cfg p)
  \/ exists l1 p l2 e,
       pts = l1 ++ p :: l2
       /\ (forall q, In q l1 -> resolves cfg q)
       /\ date_key cfg (pt_date p) = Raise e.
Proof.
  induction pts as [|a pts IH].
  - left. intros p [].
  - destruct (date_key cfg (pt_date a)) as [key|e] eqn:Ea.
    + destruct IH as [IH|[l1 [p [l2 [e [E [H1 H2]]]]]]].
      * left. intros p [<-|Hp]; [exists key; assumption | auto].
      * right. exists (a :: l1), p, l2, e. rewrite E. split; [reflexivity|].
        split; [|assumption]. intros q [<-|Hq]; [exists key; assumption | auto].
    + right. exists [], a, pts, e. split; [reflexivity|].
      split; [intros q []|assumption].
Qed.

Lemma date_key_raise_kind (cfg : config) (raw : pyval) (e : exn) :
  date_key cfg raw = Raise e ->
  (standard_date cfg = true /\ e = TypeError
   /\ forall y m d, raw <> PDatetime64 y m d)
  \/ (standard_date cfg = false /\ e = AttributeError
      /\ forall s, raw <> PStr s)
  \/ (standard_date cfg = false
      /\ exists s err, raw = PStr s
                       /\ Strptime.strptime (strip s) = inr err
                       /\ e = ValueError err).
Proof.
  unfold date_key. destruct (standard_date cfg); cbn [negb bind]; intro H.
  - left. destruct raw; cbn in H; inversion H;
      (split; [reflexivity|split; [reflexivity|intros; discriminate]]).
  - right. destruct raw as [| | |s|]; cbn in H;
      try (left; inversion H;
           split; [reflexivity|split; [reflexivity|intros; discriminate]]).
    right. split; [reflexivity|]. exists s.
    destruct (Strptime.strptime (strip s)) as [[[y m] d]|err]; cbn in H;
      [discriminate|]. inversion H. eauto.
Qed.

Lemma result_list_nonempty (cfg : config) (rd : result_dict) :
  rd <> [] -> exists rows, result_list cfg rd = Ok rows.
Proof.
  destruct rd as [|[k v] rd]; [congruence|]. intros _. eexists. reflexivity.
Qed.

(** The three ways a run ends once [columns_ok] holds. *)
Lemma main_outcome (cfg : config) (w : world) :
  columns_ok cfg = true ->
  (snd (main cfg w) = Ok tt /\ run_conditions cfg w
   /\ exists rows, output_file (fst (main cfg w)) = Some rows)
  \/ ((exists e, snd (main cfg w) = Raise e) /\ ~ run_conditions cfg w
      /\ output_file (fst (main cfg w)) = None).
Proof.
  intro Hc. unfold run_conditions.
  destruct (is_unique (map pt_id (points w))) eqn:Hu.
  2:{ right. unfold main. rewrite Hu. cbn [negb fst snd].
      rewrite output_file_setup. split; [eauto|]. split; [|reflexivity].
      intros [H _]. discriminate. }
  destruct (varname_ok cfg) eqn:Hv.
  2:{ right. unfold main. rewrite Hu, Hv. cbn [negb fst snd].
      rewrite output_file_setup. split; [eauto|]. split; [|reflexivity].
      intros [_ [H _]]. discriminate. }
  destruct (first_failure cfg (points w)) as [Hall|[l1 [p [l2 [e [E [H1 H2]]]]]]].
  - pose proof (compute_all cfg w Hu Hc Hall) as Hcomp.
    destruct (result_list cfg
                (map (fun p => (pt_id p, final_record cfg (the_raster w) p))
                     (points w))) as [rows|e] eqn:Hr.
    + left. rewrite (main_complete cfg w _ rows Hu Hv Hcomp Hr). cbn [fst snd].
      rewrite output_file_setup. split; [reflexivity|].
      split; [|exists rows; reflexivity].
      split; [reflexivity|]. split; [reflexivity|]. split; [|assumption].
      intro Ep. rewrite Ep in Hr. discriminate.
    + right. unfold main. rewrite Hu, Hv, Hcomp, Hr. cbn [negb fst snd].
      rewrite output_file_setup. split; [eauto|]. split; [|reflexivity].
      intros [_ [_ [Hne _]]]. apply Hne.
      destruct (points w); [reflexivity|discriminate].
  - right. rewrite (main_raise cfg w e Hu Hv (compute_first_raise cfg w l1 l2 p e Hu Hc E H1 H2)).
    cbn [fst snd]. rewrite output_file_setup. split; [eauto|]. split; [|reflexivity].
    intros [_ [_ [_ Hall]]]. destruct (Hall p) as [key Hk].
    + rewrite E. apply in_or_app. right. left. reflexivity.
    + congruence.
Qed.

End RunFacts.

(* ================================================================= *)
(** ** Further properties of the run *)

Import Table RunFacts.

(** X1.  The run reaches its end exactly when the IDs are unique, the variable
    kind is one of the two, the point file is not empty and every date
    resolves; and a table is written exactly when the run reaches its end. *)
Theorem run_completes_iff (cfg : config) (w : world) :
  columns_ok cfg = true ->
  (snd (main cfg w) = Ok tt <-> run_conditions cfg w)
  /\ ((exists rows, output_file (fst (main cfg w)) = Some rows)
      <-> snd (main cfg w) = Ok tt).
Proof.
  intro Hc.
  destruct (main_outcome cfg w Hc) as [[H1 [H2 H3]]|[[e H1] [H2 H3]]].
  - split; split; auto.
  - split; split; intro H.
    + rewrite H1 in H. discriminate.
    + contradiction.
    + destruct H as [rows H]. rewrite H3 in H. discriminate.
    + rewrite H1 in H. discriminate.
Qed.

Lemma run_completes_iff_witness :
  snd (main Sample2.autumn_config
         (Sample2.survey [Sample2.short_dated; Sample2.far])) = Ok tt
  /\ ~ run_conditions Sample2.autumn_config
         (Sample2.survey [Sample2.short_dated; Sample2.undated]).
Proof.
  split.
  - reflexivity.
  - intro H.
    destruct (run_completes_iff Sample2.autumn_config
                (Sample2.survey [Sample2.short_dated; Sample2.undated]))
      as [[_ G] _]; [reflexivity|].
    specialize (G H). vm_compute in G. discriminate.
Defined.

(** X2.  An empty point file passes both checks and both raster passes, then
    stops the run at the header: [StopIteration], exit status 1, no table. *)
Theorem empty_point_file_stops (cfg : config) (w : world) :
  points w = [] ->
  varname_ok cfg = true ->
  main cfg w = (setup_events w ++ [OpenRaster; OpenRaster], Raise StopIteration)
  /\ exit_status (snd (main cfg w)) = 1
  /\ output_file (fst (main cfg w)) = None.
Proof.
  intros Hp Hv.
  assert (Hu : is_unique (map pt_id (points w)) = true) by (rewrite Hp; reflexivity).
  assert (Hcomp : compute cfg w = Ok []).
  { rewrite compute_unique by assumption. rewrite Hp. reflexivity. }
  assert (Hmain : main cfg w
                  = (setup_events w ++ [OpenRaster; OpenRaster], Raise StopIteration)).
  { unfold main. rewrite Hu, Hv, Hcomp. reflexivity. }
  rewrite Hmain. cbn [fst snd]. rewrite output_file_setup.
  repeat split; reflexivity.
Qed.

Lemma empty_point_file_stops_witness :
  main Sample2.autumn_config (Sample2.survey [])
  = ([MakeOutputFolder; ReadPointFile; OpenRaster; OpenRaster], Raise StopIteration).
Proof.
  exact (proj1 (empty_point_file_stops Sample2.autumn_config (Sample2.survey [])
                  eq_refl eq_refl)).
Defined.

(** X3.  The first point whose date does not resolve ends the run with the
    exception of its resolution: [TypeError] for a value that is not a numpy
    datetime when [standard_date] is true; otherwise [AttributeError] for a
    value that is not text and the parser's [ValueError] for a text it
    refuses.  The exit status is 1 and no table is written. *)
Theorem first_bad_date_aborts_run (cfg : config) (w : world) (l1 l2 : list point)
    (p : point) (e : exn) :
  is_unique (map pt_id (points w)) = true ->
  varname_ok cfg = true ->
  columns_ok cfg = true ->
  points w = l1 ++ p :: l2 ->
  (forall q, In q l1 -> resolves cfg q) ->
  date_key cfg (pt_date p) = Raise e ->
  main cfg w = (setup_events w ++ [OpenRaster; OpenRaster], Raise e)
  /\ exit_status (snd (main cfg w)) = 1
  /\ output_file (fst (main cfg w)) = None
  /\ ((standard_date cfg = true /\ e = TypeError
       /\ forall y m d, pt_date p <> PDatetime64 y m d)
      \/ (standard_date cfg = false /\ e = AttributeError
          /\ forall s, pt_date p <> PStr s)
      \/ (standard_date cfg = false
          /\ exists s err, pt_date p = PStr s
                           /\ Strptime.strptime (strip s) = inr err
                           /\ e = ValueError err)).
Proof.
  intros Hu Hv Hc Hpts Hl1 He.
  pose proof (main_raise cfg w e Hu Hv
                (compute_first_raise cfg w l1 l2 p e Hu Hc Hpts Hl1 He)) as Hmain.
  pose proof (date_key_raise_kind cfg _ e He) as Hkind.
  rewrite Hmain. cbn [fst snd]. rewrite output_file_setup.
  split; [reflexivity|]. split; [|split; [reflexivity|exact Hkind]].
  destruct Hkind as [[_ [-> _]]|[[_ [-> _]]|[_ [s [err [_ [_ ->]]]]]]]; reflexivity.
Qed.

Lemma first_bad_date_aborts_run_witness :
  main Sample2.autumn_config
    (Sample2.survey [Sample2.short_dated; Sample2.undated; Sample2.far])
  = ([MakeOutputFolder; ReadPointFile; OpenRaster; OpenRaster], Raise AttributeError).
Proof.
  destruct (first_bad_date_aborts_run Sample2.autumn_config
              (Sample2.survey [Sample2.short_dated; Sample2.undated; Sample2.far])
              [Sample2.short_dated] [Sample2.far] Sample2.undated AttributeError)
    as [H _]; [reflexivity | reflexivity | reflexivity | reflexivity | | reflexivity | exact H].
  intros q [<-|[]]. eexists. vm_compute. reflexivity.
Defined.

(** X4.  The raster row and column of a point's record are the cell address the
    raster's index gives its coordinates, as they are, in the grid or out of
    it: the sampling and matching passes leave them untouched. *)
Theorem cell_address_kept (cfg : config) (w : world) (p : point) :
  is_unique (map pt_id (points w)) = true ->
  In p (points w) ->
  (exists rd,
     band_loop cfg (the_raster w) (band_range (the_raster w)) (startdate cfg)
       (index_points cfg (the_raster w) (points w))
     = Ok (rd, startdate cfg + Z.of_nat (count (the_raster w)))
     /\ exists v, record_of rd (pt_id p) = Some v
        /\ rec_get "RASTER_ROW" v = Some (PInt (fst (index (the_raster w) (pt_x p) (pt_y p))))
        /\ rec_get "RASTER_COL" v = Some (PInt (snd (index (the_raster w) (pt_x p) (pt_y p)))))
  /\ (forall rd', compute cfg w = Ok rd' ->
        exists v, record_of rd' (pt_id p) = Some v
        /\ rec_get "RASTER_ROW" v = Some (PInt (fst (index (the_raster w) (pt_x p) (pt_y p))))
        /\ rec_get "RASTER_COL" v = Some (PInt (snd (index (the_raster w) (pt_x p) (pt_y p))))).
Proof.
  intros Hu Hp.
  destruct (sampled_record_indexed cfg (the_raster w) p) as [Hr Hcl].
  unfold cell_address in Hr, Hcl. split.
  - exists (sampled cfg (the_raster w) (points w)).
    split; [apply band_loop_sampled; assumption|].
    exists (sampled_record cfg (the_raster w) p).
    split; [apply record_of_sampled; assumption|]. auto.
  - intros rd' Hcomp.
    destruct (compute_record cfg w rd' p Hu Hcomp Hp) as [v [Hrec Hm]].
    exists v. split; [assumption|].
    apply match_point_form in Hm as [x ->].
    rewrite !rec_get_set_other by discriminate. auto.
Qed.

Lemma cell_address_kept_witness :
  exists rd',
    compute Sample2.autumn_config (Sample2.survey [Sample2.short_dated; Sample2.far])
    = Ok rd'
    /\ exists v, record_of rd' (IdStr "e1") = Some v
       /\ rec_get "RASTER_ROW" v = Some (PInt 0)
       /\ rec_get "RASTER_COL" v = Some (PInt (-1)).
Proof.
  destruct (compute Sample2.autumn_config
              (Sample2.survey [Sample2.short_dated; Sample2.far]))
    as [rd'|e] eqn:E; [|vm_compute in E; discriminate].
  exists rd'. split; [reflexivity|].
  destruct (cell_address_kept Sample2.autumn_config
              (Sample2.survey [Sample2.short_dated; Sample2.far]) Sample2.far)
    as [_ H]; try reflexivity.
  - right. left. reflexivity.
  - exact (H rd' E).
Defined.

(* ================================================================= *)
(** ** Facts about the records, entry by entry *)

Module TableFacts.

Lemma columns_plain_ok (cfg : config) : columns_plain cfg = true -> columns_ok cfg = true.
Proof.
  unfold columns_plain. intro H. do 5 (apply andb_true_iff in H as [H _]). exact H.
Qed.

Lemma new_record_plain (cfg : config) (r : raster) (p : point) :
  columns_plain cfg = true ->
  new_record cfg r p
  = [(obname cfg, pt_name p); (obdate cfg, pt_date p);
     ("RASTER_ROW"%string, PInt (fst (cell_address r p)));
     ("RASTER_COL"%string, PInt (snd (cell_address r p)))].
Proof.
  unfold columns_plain, columns_ok, new_record, cell_address. intro H.
  repeat (apply andb_true_iff in H as [H ?]).
  repeat match goal with
         | G : negb _ = true |- _ => apply negb_true_iff in G
         end.
  destruct (index r (pt_x p) (pt_y p)) as [row col].
  unfold rec_set. cbn [Dict.set fst snd].
  rewrite (String.eqb_sym (obdate cfg) (obname cfg)), H4. cbn [Dict.set].
  rewrite (String.eqb_sym "RASTER_ROW" (obname cfg)), H3.
  rewrite (String.eqb_sym "RASTER_ROW" (obdate cfg)), H6. cbn [Dict.set].
  rewrite (String.eqb_sym "RASTER_COL" (obname cfg)), H2.
  rewrite (String.eqb_sym "RASTER_COL" (obdate cfg)), H5.
  reflexivity.
Qed.

Lemma series_explicit (cfg : config) (r : raster) (row col : Z) (bands : list nat) :
  forall (ym : Z) (v : record),
  (forall j, (j < List.length bands)%nat ->
             ~ In (ym_key (Np.str_M (ym + Z.of_nat j))) (Dict.keys v)) ->
  series cfg r row col bands ym v = v ++ series_entries cfg r row col bands ym.
Proof.
  induction bands as [|b bands IH]; intros ym v H.
  - simpl. rewrite app_nil_r. reflexivity.
  - cbn [series series_entries].
    assert (Hfresh : ~ In (ym_key (Np.str_M ym)) (Dict.keys v)).
    { specialize (H 0%nat). rewrite Z.add_0_r in H. apply H. simpl. lia. }
    unfold rec_set.
    rewrite (DictFacts.set_fresh String.eqb DictFacts.str_eqb_eq) by assumption.
    rewrite IH; [rewrite <- app_assoc; reflexivity|].
    intros j Hj. unfold Dict.keys. rewrite map_app, in_app_iff. cbn [map fst In].
    intros [G|[G|[]]].
    + apply (H (S j)); [simpl; lia|].
      replace (ym + Z.of_nat (S j)) with (ym + 1 + Z.of_nat j) by lia. exact G.
    + apply ym_key_inj, LabelFacts.str_M_inj in G. lia.
Qed.

Lemma series_entries_seq (cfg : config) (r : raster) (row col : Z) (n : nat) :
  forall s : nat,
  series_entries cfg r row col (seq s n) (startdate cfg + (Z.of_nat s - 1))
  = map (fun b => (ym_key (band_label cfg b), cell_value cfg r b row col)) (seq s n).
Proof.
  induction n as [|n IH]; intro s; [reflexivity|].
  cbn [seq series_entries map]. f_equal.
  replace (startdate cfg + (Z.of_nat s - 1) + 1)
    with (startdate cfg + (Z.of_nat (S s) - 1)) by lia.
  apply IH.
Qed.

Lemma sampled_record_entries (cfg : config) (r : raster) (p : point) :
  columns_ok cfg = true ->
  sampled_record cfg r p
  = new_record cfg r p
    ++ map (fun b => (ym_key (band_label cfg b),
                      cell_value cfg r b (fst (cell_address r p)) (snd (cell_address r p))))
           (band_range r).
Proof.
  intro Hc. unfold sampled_record.
  rewrite series_explicit by (intros j _; apply new_record_no_label; assumption).
  f_equal. unfold band_range.
  replace (startdate cfg) with (startdate cfg + (Z.of_nat 1 - 1)) at 1 by lia.
  apply series_entries_seq.
Qed.

Lemma final_record_entries (cfg : config) (r : raster) (p : point) :
  columns_plain cfg = true ->
  final_record cfg r p
  = [(obname cfg, pt_name p); (obdate cfg, pt_date p);
     ("RASTER_ROW"%string, PInt (fst (cell_address r p)));
     ("RASTER_COL"%string, PInt (snd (cell_address r p)))]
    ++ map (fun b => (ym_key (band_label cfg b),
                      cell_value cfg r b (fst (cell_address r p)) (snd (cell_address r p))))
           (band_range r)
    ++ [("MATCH_VALUE"%string, match_value cfg r p)].
Proof.
  intro Hp. pose proof (columns_plain_ok cfg Hp) as Hc.
  unfold final_record, rec_set.
  rewrite (DictFacts.set_fresh String.eqb DictFacts.str_eqb_eq).
  - rewrite sampled_record_entries, new_record_plain by assumption.
    rewrite <- app_assoc. reflexivity.
  - rewrite sampled_record_keys by assumption. rewrite in_app_iff. intros [G|G].
    + rewrite new_record_plain in G by assumption.
      unfold columns_plain in Hp. repeat (apply andb_true_iff in Hp as [Hp ?]).
      repeat match goal with
             | E : negb _ = true |- _ => apply negb_true_iff in E
             end.
      cbn [Dict.keys map fst In] in G.
      destruct G as [G|[G|[G|[G|[]]]]]; try discriminate;
        rewrite <- G in *; rewrite String.eqb_refl in *; discriminate.
    + apply in_map_iff in G as [label [E _]].
      exact (fixed_not_ym "MATCH_VALUE" (or_intror (or_intror eq_refl)) label (eq_sym E)).
Qed.

Lemma final_record_keys (cfg : config) (r : raster) (p : point) :
  columns_plain cfg = true ->
  map PStr (Dict.keys (final_record cfg r p))
  = map PStr ([obname cfg; obdate cfg; "RASTER_ROW"; "RASTER_COL"]%string
                ++ map ym_key (sampled_labels cfg r) ++ ["MATCH_VALUE"%string]).
Proof.
  intro Hp. rewrite final_record_entries by assumption. f_equal.
  unfold Dict.keys, sampled_labels. rewrite !map_app, !map_map. reflexivity.
Qed.

Lemma final_record_values (cfg : config) (r : raster) (p : point) :
  columns_plain cfg = true ->
  pyval_of_id (pt_id p) :: Dict.values (final_record cfg r p) = table_row cfg r p.
Proof.
  intro Hp. rewrite final_record_entries by assumption.
  unfold Dict.values, table_row. rewrite !map_app, !map_map. reflexivity.
Qed.

Lemma result_list_table (cfg : config) (w : world) :
  columns_plain cfg = true -> points w <> [] ->
  result_list cfg
    (map (fun p => (pt_id p, final_record cfg (the_raster w) p)) (points w))
  = Ok (table cfg w).
Proof.
  intros Hp Hne. unfold table.
  destruct (points w) as [|p0 pts]; [congruence|].
  unfold result_list. cbn [map]. f_equal. f_equal.
  - unfold header_row.
    rewrite (final_record_keys cfg (the_raster w) p0 Hp). reflexivity.
  - f_equal.
    + apply final_record_values. assumption.
    + rewrite map_map. apply map_ext. intro p. apply final_record_values. assumption.
Qed.

Lemma band_label_inj (cfg : config) (a b : nat) :
  band_label cfg a = band_label cfg b -> (1 <= a)%nat -> (1 <= b)%nat -> a = b.
Proof.
  unfold band_label. intros E Ha Hb. apply LabelFacts.str_M_inj in E. lia.
Qed.

Lemma sampled_labels_NoDup (cfg : config) (r : raster) : NoDup (sampled_labels cfg r).
Proof.
  unfold sampled_labels, band_range. generalize 1%nat at 1 as s.
  induction (count r) as [|n IH]; intro s; cbn [seq map]; constructor.
  - rewrite in_map_iff. intros [b [E Hb]]. apply in_seq in Hb.
    unfold band_label in E. apply LabelFacts.str_M_inj in E. lia.
  - apply IH.
Qed.

End TableFacts.

Import TableFacts.

(** X5.  With unique IDs, a valid kind, plain column names, at least one point
    and every date resolved, the table written is a header (ID, name, date,
    raster row, raster column, one column per band label in band order,
    [MATCH_VALUE]) and one row per point in the order of the point file,
    each with the point's ID, name, raw date, cell address, one sampled
    value per band and the match value.  Every row is as long as the
    header. *)
Theorem table_written (cfg : config) (w : world) :
  is_unique (map pt_id (points w)) = true ->
  varname_ok cfg = true ->
  columns_plain cfg = true ->
  points w <> [] ->
  (forall p, In p (points w) -> resolves cfg p) ->
  main cfg w
  = (setup_events w
       ++ [OpenRaster; OpenRaster; OpenRaster; Plot;
           WriteCsv (outpath cfg w) (table cfg w);
           Print (msg_done cfg w (table cfg w))],
     Ok tt)
  /\ List.length (table cfg w) = S (List.length (points w))
  /\ (forall row, In row (table cfg w) ->
        List.length row = (6 + count (the_raster w))%nat).
Proof.
  intros Hu Hv Hp Hne Hall. pose proof (columns_plain_ok cfg Hp) as Hc.
  split; [|split].
  - apply (main_complete cfg w _ _ Hu Hv (compute_all cfg w Hu Hc Hall)).
    apply result_list_table; assumption.
  - unfold table. cbn [List.length]. rewrite length_map. reflexivity.
  - intros row [<-|Hin].
    + unfold header_row, sampled_labels, band_range.
      rewrite length_map, !length_app, !length_map, length_seq. cbn. lia.
    + apply in_map_iff in Hin as [p [<- _]]. unfold table_row, band_range.
      cbn [List.length]. rewrite length_app, length_map, length_seq. cbn. lia.
Qed.

Lemma table_written_witness :
  output_file (fst (main Sample2.autumn_config
                      (Sample2.survey [Sample2.short_dated; Sample2.far])))
  = Some [[PStr "OBS_NUM"; PStr "OBS_NAME"; PStr "OBS_DATE"; PStr "RASTER_ROW";
           PStr "RASTER_COL"; PStr "YM-2018-11"; PStr "YM-2018-12";
           PStr "YM-2019-01"; PStr "MATCH_VALUE"];
          [PStr "d4"; PStr "Exeter"; PStr "1/9/2019"; PInt 0; PInt 0;
           PFloat 1000%float; PFloat 2000%float; PFloat 3000%float;
           PFloat 3000%float];
          [PStr "e1"; PStr "Block Island"; PStr "11/30/2018"; PInt 0; PInt (-1);
           PNone; PNone; PNone; PNone]].
Proof.
  destruct (table_written Sample2.autumn_config
              (Sample2.survey [Sample2.short_dated; Sample2.far]))
    as [H _]; [reflexivity | reflexivity | reflexivity | discriminate | | ].
  - intros q [<-|[<-|[]]]; eexists; vm_compute; reflexivity.
  - rewrite H. vm_compute. reflexivity.
Defined.

(** X6.  For any start period, the sampling pass gives every point of the
    file a record with one period label per band, in band order, the label
    of a band holding the value sampled at that band: the label of each band
    is one calendar month after the label of the band before (December is
    followed by January of the next year), and no label comes twice. *)
Theorem band_labels_consecutive (cfg : config) (w : world) :
  is_unique (map pt_id (points w)) = true ->
  columns_ok cfg = true ->
  exists rd,
    band_loop cfg (the_raster w) (band_range (the_raster w)) (startdate cfg)
      (index_points cfg (the_raster w) (points w))
    = Ok (rd, startdate cfg + Z.of_nat (count (the_raster w)))
    /\ map fst rd = map pt_id (points w)
    /\ (forall p, In p (points w) ->
          exists v, record_of rd (pt_id p) = Some v
          /\ period_labels v = map (band_label cfg) (band_range (the_raster w))
          /\ forall b, (1 <= b <= count (the_raster w))%nat ->
               rec_get (ym_key (band_label cfg b)) v
               = Some (cell_value cfg (the_raster w) b
                         (fst (cell_address (the_raster w) p))
                         (snd (cell_address (the_raster w) p))))
    /\ (forall k v, In (k, v) rd ->
          period_labels v = map (band_label cfg) (band_range (the_raster w)))
    /\ List.length (map (band_label cfg) (band_range (the_raster w)))
       = count (the_raster w)
    /\ NoDup (map (band_label cfg) (band_range (the_raster w)))
    /\ (forall b, (1 <= b)%nat ->
          label_month (band_label cfg (S b)) = label_month (band_label cfg b) + 1)
    /\ (forall b, 1 <= snd (Decode.year_month (band_label cfg b)) <= 12).
Proof.
  intros Hu Hc. exists (sampled cfg (the_raster w) (points w)).
  split; [apply band_loop_sampled; assumption|].
  split; [unfold sampled; rewrite map_map; reflexivity|].
  split; [|split; [|split; [|split; [|split]]]].
  - intros p Hp. exists (sampled_record cfg (the_raster w) p).
    split; [apply record_of_sampled; assumption|].
    split; [apply sampled_record_period_labels; assumption|].
    intros b Hb. apply sampled_record_label. assumption.
  - intros k v Hin. unfold sampled in Hin.
    apply in_map_iff in Hin as [p [E _]]. inversion E; subst.
    apply sampled_record_period_labels. assumption.
  - unfold band_range. rewrite length_map, length_seq. reflexivity.
  - apply sampled_labels_NoDup.
  - intros b Hb. unfold band_label, Np.str_M. rewrite !label_month_iso.
    unfold Np.year_of, Np.month_of. Z.to_euclidean_division_equations. lia.
  - intro b. unfold band_label, Np.str_M. rewrite LabelFacts.year_month_iso.
    cbn [snd]. unfold Np.month_of. Z.to_euclidean_division_equations. lia.
Qed.

Lemma band_labels_consecutive_witness :
  exists rd,
    band_loop Sample2.autumn_config Sample2.autumn (band_range Sample2.autumn)
      (Np.of_year_month 2018 11)
      (index_points Sample2.autumn_config Sample2.autumn [Sample2.short_dated])
    = Ok (rd, Np.of_year_month 2019 2)
    /\ map fst rd = [IdStr "d4"]
    /\ exists v, record_of rd (IdStr "d4") = Some v
       /\ period_labels v = ["2018-11"; "2018-12"; "2019-01"]%string
       /\ rec_get "YM-2019-01" v = Some (PFloat 3000%float).
Proof.
  assert (Hb : (1 <= 3 <= 3)%nat) by lia.
  destruct (band_labels_consecutive Sample2.autumn_config
              (Sample2.survey [Sample2.short_dated]))
    as [rd [H1 [H2 [H3 _]]]]; [reflexivity | reflexivity |].
  exists rd. split; [exact H1|]. split; [exact H2|].
  destruct (H3 Sample2.short_dated (or_introl eq_refl)) as [v [Hv [Hl Hx]]].
  exists v. split; [exact Hv|]. split; [exact Hl|]. exact (Hx 3%nat Hb).
Defined.

(** X7.  With [standard_date] true, a date that is already a numpy datetime
    resolves to the key of its year and month, whatever its day, and the
    point's [MATCH_VALUE] is the value sampled for the band with that label,
    or [None] when no band has it. *)
Theorem standard_datetime_match (cfg : config) (w : world) (p : point) (y m d : Z) :
  standard_date cfg = true ->
  is_unique (map pt_id (points w)) = true ->
  columns_ok cfg = true ->
  In p (points w) ->
  pt_date p = PDatetime64 y m d ->
  date_key cfg (pt_date p) = Ok (ym_key (Np.iso_year_month y m))
  /\ (forall b, (1 <= b <= count (the_raster w))%nat ->
        band_label cfg b = Np.iso_year_month y m ->
        match_value cfg (the_raster w) p
        = cell_value cfg (the_raster w) b
            (fst (cell_address (the_raster w) p)) (snd (cell_address (the_raster w) p)))
  /\ (~ In (Np.iso_year_month y m) (sampled_labels cfg (the_raster w)) ->
        match_value cfg (the_raster w) p = PNone)
  /\ (forall rd, compute cfg w = Ok rd ->
        exists v, record_of rd (pt_id p) = Some v
        /\ rec_get "MATCH_VALUE" v = Some (match_value cfg (the_raster w) p)).
Proof.
  intros Hs Hu Hc Hp Hdate.
  assert (Hkey : date_key cfg (pt_date p) = Ok (ym_key (Np.iso_year_month y m))).
  { rewrite Hdate. unfold date_key. rewrite Hs. reflexivity. }
  split; [exact Hkey|]. split; [|split].
  - intros b Hb Hl. unfold match_value, lookup_or_none. rewrite Hkey, <- Hl.
    rewrite sampled_record_label by assumption. reflexivity.
  - intro Hout. unfold match_value, lookup_or_none. rewrite Hkey.
    rewrite sampled_record_absent by assumption. reflexivity.
  - intros rd Hcomp.
    destruct (compute_record cfg w rd p Hu Hcomp Hp) as [v [Hr Hm]].
    exists v. split; [assumption|].
    rewrite match_point_final in Hm; [|assumption|eexists; exact Hkey].
    inversion Hm. apply rec_get_set_same.
Qed.

Lemma standard_datetime_match_witness :
  date_key Sample2.autumn_standard (PDatetime64 2018 12 24) = Ok "YM-2018-12"
  /\ exists rd,
       compute Sample2.autumn_standard
         (Sample2.survey [Sample2.stamped; Sample2.stamped_late]) = Ok rd
       /\ exists v, record_of rd (IdStr "a7") = Some v
          /\ rec_get "MATCH_VALUE" v = Some (PFloat 4000%float).
Proof.
  destruct (standard_datetime_match Sample2.autumn_standard
              (Sample2.survey [Sample2.stamped; Sample2.stamped_late])
              Sample2.stamped 2018 12 24)
    as [H1 [_ [_ H4]]];
    [reflexivity | reflexivity | reflexivity | left; reflexivity | reflexivity |].
  split; [exact H1|].
  destruct (compute Sample2.autumn_standard
              (Sample2.survey [Sample2.stamped; Sample2.stamped_late]))
    as [rd|e] eqn:E; [|vm_compute in E; discriminate].
  exists rd. split; [reflexivity|]. exact (H4 rd eq_refl).
Defined.

(* ================================================================= *)
(** ** Facts about the date parser *)

Module ParseFacts.
Import Strptime.

Lemma isdigit_range (c : ascii) : isdigit c = true -> 0 <= digit_value c <= 9.
Proof.
  unfold isdigit, digit_value. intro H. apply andb_true_iff in H as [H1 H2].
  apply N.leb_le in H1, H2. lia.
Qed.

Lemma first_success_in {A B : Type} (k : A -> option B) (l : list A) (b : B) :
  first_success k l = Some b -> exists a, In a l /\ k a = Some b.
Proof.
  induction l as [|a l IH]; simpl; intro H; [discriminate|].
  destruct (k a) as [b'|] eqn:E.
  - inversion H; subst. exists a. auto.
  - destruct (IH H) as [a' [Hin Hk]]. exists a'. auto.
Qed.

Lemma first_success_head {A B : Type} (k : A -> option B) (a : A) (l : list A) (b : B) :
  k a = Some b -> first_success k (a :: l) = Some b.
Proof. intro H. simpl. rewrite H. reflexivity. Qed.

Ltac split_alts H :=
  repeat (apply in_app_or in H as [H|H]);
  repeat match type of H with
         | In _ (if ?c then _ else _) => destruct c eqn:?; [|destruct H]
         | In _ [_] => destruct H as [H|[]]; apply pair_equal_spec in H as [? ?]; subst
         | In _ [] => destruct H
         end.

Ltac digit_bounds :=
  repeat match goal with
         | H : _ && _ = true |- _ => apply andb_true_iff in H as [? ?]
         | H : _ || _ = true |- _ => apply orb_true_iff in H as [?|?]
         | H : Ascii.eqb _ _ = true |- _ => apply Ascii.eqb_eq in H; subst
         | H : isdigit _ = true |- _ => apply isdigit_range in H
         | H : (_ <=? _) = true |- _ => apply Z.leb_le in H
         end.

Lemma alts_m_range (s : string) (m : Z) (rest : string) :
  In (m, rest) (alts_m s) -> 1 <= m <= 12.
Proof.
  unfold alts_m. intro H. destruct s as [|a [|b r2]]; [destruct H| |];
    split_alts H; digit_bounds; try (change (digit_value "1") with 1 in * );
    try lia.
Qed.

Lemma alts_d_range (s : string) (d : Z) (rest : string) :
  In (d, rest) (alts_d s) -> 1 <= d <= 31.
Proof.
  unfold alts_d. intro H. destruct s as [|a [|b r2]]; [destruct H| |];
    split_alts H; digit_bounds;
    try (change (digit_value "1") with 1 in * );
    try (change (digit_value "2") with 2 in * );
    try lia.
Qed.

Lemma match_Y_range (s : string) (y : Z) (rest : string) :
  match_Y s = Some (y, rest) -> 0 <= y <= 9999.
Proof.
  unfold match_Y. destruct s as [|a [|b [|c [|d r]]]]; try discriminate.
  destruct (isdigit a && isdigit b && isdigit c && isdigit d) eqn:E; [|discriminate].
  intro H. apply (f_equal (fun o => match o with Some (v, _) => v | None => 0 end)) in H.
  cbv beta iota in H. subst y. digit_bounds. lia.
Qed.

(** Whatever the parser's pattern matches is a month, a day of at most 31
    and a four-digit year. *)
Lemma regex_match_range (s : string) (m d y : Z) (rest : string) :
  regex_match s = Some (m, d, y, rest) ->
  1 <= m <= 12 /\ 1 <= d <= 31 /\ 0 <= y <= 9999.
Proof.
  unfold regex_match. intro H.
  apply first_success_in in H as [[m' r1] [Hm H]].
  destruct (match_slash r1) as [r2|]; [|discriminate].
  apply first_success_in in H as [[d' r3] [Hd H]].
  destruct (match_slash r3) as [r4|]; [|discriminate].
  destruct (match_Y r4) as [[y' r5]|] eqn:Hy; [|discriminate].
  inversion H; subst.
  apply alts_m_range in Hm. apply alts_d_range in Hd. apply match_Y_range in Hy.
  auto.
Qed.

(** A text whose second and third characters are both not a slash has no
    place for the slash after the month. *)
Lemma regex_no_slash (a b c : ascii) (r : string) :
  b <> "/"%char -> c <> "/"%char ->
  regex_match (String a (String b (String c r))) = None.
Proof.
  intros Hb Hc. apply Ascii.eqb_neq in Hb, Hc.
  unfold regex_match, alts_m.
  destruct (Ascii.eqb a "1" && isdigit b && (digit_value b <=? 2));
    destruct (Ascii.eqb a "0" && isdigit b && (1 <=? digit_value b));
    destruct (isdigit a && (1 <=? digit_value a));
    cbn [List.app first_success match_slash]; rewrite ?Hb, ?Hc; reflexivity.
Qed.

Lemma short_cases (n : Z) :
  1 <= n <= 9 ->
  n = 1 \/ n = 2 \/ n = 3 \/ n = 4 \/ n = 5 \/ n = 6 \/ n = 7 \/ n = 8 \/ n = 9.
Proof. lia. Qed.

Lemma alts_m_field (pm : bool) (m : Z) (rest : string) :
  1 <= m <= 12 ->
  exists tl, alts_m (date_field pm m ++ String "/" rest) = (m, String "/" rest) :: tl.
Proof.
  intro H. unfold date_field, short_digits.
  destruct pm; [apply alts_m_two; assumption|].
  destruct (m <? 10) eqn:E; [|apply alts_m_two; assumption].
  apply Z.ltb_lt in E. assert (G : 1 <= m <= 9) by lia.
  apply short_cases in G.
  repeat (destruct G as [G|G]); subst; eexists; reflexivity.
Qed.

Lemma alts_d_field (pd : bool) (d : Z) (rest : string) :
  1 <= d <= 31 ->
  exists tl, alts_d (date_field pd d ++ String "/" rest) = (d, String "/" rest) :: tl.
Proof.
  intro H. unfold date_field, short_digits.
  destruct pd; [apply alts_d_two; assumption|].
  destruct (d <? 10) eqn:E; [|apply alts_d_two; assumption].
  apply Z.ltb_lt in E. assert (G : 1 <= d <= 9) by lia.
  apply short_cases in G.
  repeat (destruct G as [G|G]); subst; eexists; reflexivity.
Qed.

(** The pattern reads a written date back, and leaves what follows it. *)
Lemma regex_match_text (pm pd : bool) (m d y : Z) (rest : string) :
  1 <= m <= 12 -> 1 <= d <= 31 -> 0 <= y <= 9999 ->
  regex_match (date_text pm pd m d y ++ rest) = Some (m, d, y, rest).
Proof.
  intros Hm Hd Hy. unfold date_text.
  rewrite !StrFacts.append_assoc. cbn [append].
  unfold regex_match.
  destruct (alts_m_field pm m (date_field pd d ++ String "/" (four_digits y ++ rest)) Hm)
    as [tm ->].
  apply first_success_head. cbn [match_slash]. cbn [Ascii.eqb Bool.eqb].
  destruct (alts_d_field pd d (four_digits y ++ rest) Hd) as [td ->].
  apply first_success_head. cbn [match_slash]. cbn [Ascii.eqb Bool.eqb].
  rewrite match_Y_four by assumption. reflexivity.
Qed.

Lemma no_space_app (a b : string) : no_space (a ++ b) = no_space a && no_space b.
Proof.
  induction a as [|c a IH]; simpl; [reflexivity|].
  rewrite IH, andb_assoc. reflexivity.
Qed.

Lemma date_text_no_space (pm pd : bool) (m d y : Z) :
  1 <= m <= 12 -> 1 <= d <= 31 -> 0 <= y <= 9999 ->
  no_space (date_text pm pd m d y) = true.
Proof.
  intros Hm Hd Hy.
  assert (G : forall k, 0 <= k <= 9 -> negb (isspace (digit_char k)) = true).
  { intros k Hk. destruct (digit_char_facts k Hk) as [_ [_ ->]]. reflexivity. }
  assert (F : forall pad n, 1 <= n <= 31 -> no_space (date_field pad n) = true).
  { intros pad n Hn. unfold date_field, short_digits, two_digits.
    destruct pad; [|destruct (n <? 10) eqn:E; [apply Z.ltb_lt in E|]];
      cbn [no_space]; rewrite !G; try reflexivity;
      Z.to_euclidean_division_equations; lia. }
  unfold date_text. rewrite !no_space_app, !F by lia. cbn [no_space andb].
  unfold four_digits, two_digits. cbn [no_space].
  rewrite !G; try reflexivity; Z.to_euclidean_division_equations; lia.
Qed.

End ParseFacts.

(* ================================================================= *)
(** ** Further properties of date resolution *)

Import ParseFacts.

(** X8.  With [standard_date] false, a text that resolves is a calendar date
    written month first: its key is the key of a year from 1 to 9999 and a
    month from 1 to 12, and the day it names exists in that month. *)
Theorem resolved_text_is_calendar_date (cfg : config) (s key : string) :
  standard_date cfg = false ->
  date_key cfg (PStr s) = Ok key ->
  exists y m d,
    Strptime.strptime (strip s) = inl (y, m, d)
    /\ key = ym_key (Np.iso_year_month y m)
    /\ 1 <= y <= 9999 /\ 1 <= m <= 12
    /\ 1 <= d <= Strptime.days_in_month y m.
Proof.
  intros Hs H. rewrite date_key_text in H by assumption.
  destruct (Strptime.strptime (strip s)) as [[[y m] d]|e] eqn:E; [|discriminate].
  exists y, m, d. split; [reflexivity|]. split; [congruence|].
  unfold Strptime.strptime in E.
  destruct (Strptime.regex_match (strip s)) as [[[[m' d'] y'] rest]|] eqn:R;
    [|discriminate].
  destruct rest; [|discriminate].
  destruct ((1 <=? y') && (d' <=? Strptime.days_in_month y' m')) eqn:C; [|discriminate].
  inversion E; subst. apply regex_match_range in R as [Hm [Hd Hy]].
  apply andb_true_iff in C as [C1 C2]. apply Z.leb_le in C1, C2. lia.
Qed.

Lemma resolved_text_is_calendar_date_witness :
  exists y m d,
    Strptime.strptime (strip " 1/9/2019 ") = inl (y, m, d)
    /\ "YM-2019-01"%string = ym_key (Np.iso_year_month y m)
    /\ 1 <= y <= 9999 /\ 1 <= m <= 12
    /\ 1 <= d <= Strptime.days_in_month y m.
Proof.
  exact (resolved_text_is_calendar_date Sample2.autumn_config " 1/9/2019 "
           "YM-2019-01" eq_refl eq_refl).
Defined.

(** X9.  With [standard_date] false, a text whose second and third characters
    (once stripped) are both not a slash is refused as not matching the
    format: so are dates written with dashes, day first as the docstring has
    them or year first. *)
Theorem text_without_slash_refused (cfg : config) (s : string) (a b c : ascii)
    (r : string) :
  standard_date cfg = false ->
  strip s = String a (String b (String c r)) ->
  b <> "/"%char -> c <> "/"%char ->
  date_key cfg (PStr s)
  = Raise (ValueError (Strptime.NoMatch (strip s) Strptime.format)).
Proof.
  intros Hs E Hb Hc. rewrite date_key_text by assumption.
  unfold Strptime.strptime. rewrite E, regex_no_slash by assumption. reflexivity.
Qed.

Lemma text_without_slash_refused_witness :
  date_key default_config (PStr "15-03-2019")
  = Raise (ValueError (Strptime.NoMatch "15-03-2019" "%m/%d/%Y"))
  /\ date_key default_config (PStr "2019-03-15 ")
     = Raise (ValueError (Strptime.NoMatch "2019-03-15" "%m/%d/%Y")).
Proof.
  split.
  - apply (text_without_slash_refused default_config "15-03-2019"
             "1" "5" "-" "03-2019"); [reflexivity | reflexivity | | ]; discriminate.
  - apply (text_without_slash_refused default_config "2019-03-15 "
             "2" "0" "1" "9-03-15"); [reflexivity | reflexivity | | ]; discriminate.
Defined.

(** X10.  With [standard_date] false, the month and the day of a calendar date
    may each be written with or without a leading zero: every such text
    resolves to the key of the date's year and month. *)
Theorem date_with_or_without_zeros (cfg : config) (pm pd : bool) (m d y : Z) :
  standard_date cfg = false ->
  1 <= m <= 12 -> 1 <= d <= Strptime.days_in_month y m -> 1 <= y <= 9999 ->
  date_key cfg (PStr (date_text pm pd m d y))
  = Ok (ym_key (Np.iso_year_month y m)).
Proof.
  intros Hs Hm Hd Hy. pose proof (days_in_month_max y m) as Hmax.
  rewrite date_key_text by assumption.
  rewrite strip_no_space by (apply date_text_no_space; lia).
  unfold Strptime.strptime.
  rewrite <- (StrFacts.append_nil_r (date_text pm pd m d y)).
  rewrite regex_match_text by lia.
  replace (1 <=? y) with true by (symmetry; apply Z.leb_le; lia).
  replace (d <=? Strptime.days_in_month y m) with true by (symmetry; apply Z.leb_le; lia).
  reflexivity.
Qed.

Lemma date_with_or_without_zeros_witness :
  date_key default_config (PStr "3/05/2019") = Ok "YM-2019-03"
  /\ date_key default_config (PStr "12/1/2024") = Ok "YM-2024-12".
Proof.
  split.
  - apply (date_with_or_without_zeros default_config false true 3 5 2019);
      [reflexivity | lia | vm_compute; intuition discriminate | lia].
  - apply (date_with_or_without_zeros default_config true false 12 1 2024);
      [reflexivity | lia | vm_compute; intuition discriminate | lia].
Defined.

(** X11.  With [standard_date] false, a well-written text that names no real day
    is refused as out of range: a day past the end of its month (February 29
    outside a leap year) or the year 0000. *)
Theorem impossible_date_refused (cfg : config) (pm pd : bool) (m d y : Z) :
  standard_date cfg = false ->
  1 <= m <= 12 -> 1 <= d <= 31 -> 0 <= y <= 9999 ->
  y = 0 \/ Strptime.days_in_month y m < d ->
  date_key cfg (PStr (date_text pm pd m d y))
  = Raise (ValueError (Strptime.OutOfRange y m d)).
Proof.
  intros Hs Hm Hd Hy Hbad.
  rewrite date_key_text by assumption.
  rewrite strip_no_space by (apply date_text_no_space; lia).
  unfold Strptime.strptime.
  rewrite <- (StrFacts.append_nil_r (date_text pm pd m d y)).
  rewrite regex_match_text by lia.
  replace ((1 <=? y) && (d <=? Strptime.days_in_month y m)) with false; [reflexivity|].
  symmetry. apply andb_false_iff. destruct Hbad as [->|H]; [left; reflexivity|].
  right. apply Z.leb_gt. assumption.
Qed.

Lemma impossible_date_refused_witness :
  date_key default_config (PStr "02/29/2019")
  = Raise (ValueError (Strptime.OutOfRange 2019 2 29))
  /\ date_key default_config (PStr "02/29/2020") = Ok "YM-2020-02".
Proof.
  split; [|reflexivity].
  apply (impossible_date_refused default_config true true 2 29 2019);
    [reflexivity | lia | lia | lia | right; vm_compute; reflexivity].
Defined.

(** X12.  With [standard_date] false, a date followed by anything that stripping
    does not remove (a time of day, a fifth year digit) is refused: the
    error names what remains after the date. *)
Theorem trailing_text_refused (cfg : config) (s : string) (pm pd : bool)
    (m d y : Z) (c : ascii) (rest : string) :
  standard_date cfg = false ->
  1 <= m <= 12 -> 1 <= d <= 31 -> 0 <= y <= 9999 ->
  strip s = (date_text pm pd m d y ++ String c rest)%string ->
  date_key cfg (PStr s)
  = Raise (ValueError (Strptime.UnconvertedRemains (String c rest))).
Proof.
  intros Hs Hm Hd Hy E. rewrite date_key_text by assumption.
  unfold Strptime.strptime. rewrite E, regex_match_text by assumption.
  reflexivity.
Qed.

Lemma trailing_text_refused_witness :
  date_key default_config (PStr "03/15/2019 10:30")
  = Raise (ValueError (Strptime.UnconvertedRemains " 10:30")).
Proof.
  apply (trailing_text_refused default_config "03/15/2019 10:30" true true
           3 15 2019 " " "10:30"); [reflexivity | lia | lia | lia | reflexivity].
Defined.

(** X13.  The value stored for a point at a band is [None] exactly when the
    point's cell address is outside the grid, that is when its row is below
    0 or at least the height, or its column below 0 or at least the
    width. *)
Theorem sampled_none_iff_outside (cfg : config) (w : world) (p : point) (b : nat) :
  is_unique (map pt_id (points w)) = true ->
  In p (points w) ->
  (1 <= b <= count (the_raster w))%nat ->
  exists rd,
    band_loop cfg (the_raster w) (band_range (the_raster w)) (startdate cfg)
      (index_points cfg (the_raster w) (points w))
    = Ok (rd, startdate cfg + Z.of_nat (count (the_raster w)))
    /\ exists v x,
         record_of rd (pt_id p) = Some v
         /\ rec_get (ym_key (band_label cfg b)) v = Some x
         /\ (x = PNone
             <-> fst (index (the_raster w) (pt_x p) (pt_y p)) < 0
                 \/ height (the_raster w) <= fst (index (the_raster w) (pt_x p) (pt_y p))
                 \/ snd (index (the_raster w) (pt_x p) (pt_y p)) < 0
                 \/ width (the_raster w) <= snd (index (the_raster w) (pt_x p) (pt_y p))).
Proof.
  intros Hu Hp Hb. exists (sampled cfg (the_raster w) (points w)).
  split; [apply band_loop_sampled; assumption|].
  exists (sampled_record cfg (the_raster w) p),
         (cell_value cfg (the_raster w) b
            (fst (cell_address (the_raster w) p)) (snd (cell_address (the_raster w) p))).
  split; [apply record_of_sampled; assumption|].
  split; [apply sampled_record_label; assumption|].
  unfold cell_value, cell_address, out_of_grid.
  set (row := fst (index (the_raster w) (pt_x p) (pt_y p))).
  set (col := snd (index (the_raster w) (pt_x p) (pt_y p))).
  destruct ((row <? 0) || (height (the_raster w) <=? row) || (col <? 0)
            || (width (the_raster w) <=? col)) eqn:E.
  - split; [|reflexivity]. intros _.
    repeat (apply orb_true_iff in E as [E|E]);
      try apply Z.ltb_lt in E; try apply Z.leb_le in E; auto.
  - split; [discriminate|]. intro H.
    repeat (apply orb_false_iff in E as [E ?]).
    apply Z.ltb_ge in E.
    repeat match goal with
           | G : (_ <? _) = false |- _ => apply Z.ltb_ge in G
           | G : (_ <=? _) = false |- _ => apply Z.leb_gt in G
           end.
    lia.
Qed.

Lemma sampled_none_iff_outside_witness :
  exists rd,
    band_loop Sample2.autumn_config Sample2.autumn (band_range Sample2.autumn)
      (Np.of_year_month 2018 11)
      (index_points Sample2.autumn_config Sample2.autumn
         [Sample2.short_dated; Sample2.far])
    = Ok (rd, Np.of_year_month 2019 2)
    /\ exists v x,
         record_of rd (IdStr "e1") = Some v
         /\ rec_get "YM-2018-12" v = Some x
         /\ (x = PNone <-> 0 < 0 \/ 2 <= 0 \/ -1 < 0 \/ 2 <= -1).
Proof.
  assert (Hb : (1 <= 2 <= 3)%nat) by lia.
  destruct (sampled_none_iff_outside Sample2.autumn_config
              (Sample2.survey [Sample2.short_dated; Sample2.far]) Sample2.far 2)
    as [rd [H1 [v [x [H2 [H3 H4]]]]]];
    [reflexivity | right; left; reflexivity | exact Hb |].
  exists rd. split; [exact H1|]. exists v, x. auto.
Defined.
